(** * Live video requests: the Django service of the live-shopping tutorial

    A shallow embedding of the backend described in [BLOG.md]:
    - [dyte_api_client.py]: [DyteAPIClient], three HTTP calls to the
      conferencing provider and the unwrapping of its response envelope;
    - [live_shopping/models.py]: the [LiveVideoRequest] table;
    - [live_shopping/serializers.py]: the two serializers that validate
      a create payload;
    - [live_shopping/views.py]: [LiveVideoRequestViewSet] with its four
      handlers [create], [list], [start] and [user_token].

    The database table is a finite map from primary keys to rows, the
    provider is a function from the requests sent so far and the current
    request to its reply, and a handler is a function on the pair of both
    that returns a response or raises. *)

From stdpp Require Import gmap strings list fin_maps.
From Stdlib Require Import ZArith String.

Local Open Scope Z_scope.
Local Open Scope string_scope.

(** ** Values decoded from JSON *)

(** What [json.loads] (and DRF's [request.data]) hands to the program.
    An object is the list of its items; the keys of a Python [dict] are
    distinct, so the first match of a key is the item. *)
#[warnings="-register-all"]
Inductive json : Type :=
| JNull
| JBool (b : bool)
| JNum (n : Z)
| JStr (s : string)
| JArr (items : list json)
| JObj (items : list (string * json)).

Fixpoint assoc {A : Type} (k : string) (items : list (string * A)) : option A :=
  match items with
  | [] => None
  | (k', v) :: rest => if String.eqb k k' then Some v else assoc k rest
  end.

Definition keys {A : Type} (items : list (string * A)) : list string :=
  map fst items.

(** ** Exceptions and results *)

(** A response of the provider as [requests] sees it: the status code and
    the body, which is either JSON text (given by its decoded value) or
    text that [response.json()] cannot decode. *)
Inductive Content : Type :=
| JsonText (j : json)
| OtherText (s : string).

Record HttpResponse : Type := {
  status_code : Z;
  content : Content;
}.

Inductive Exception : Type :=
| HTTPError (response : HttpResponse)   (* requests.HTTPError(response=...) *)
| ConnectionError                       (* requests: no response at all *)
| JSONDecodeError
| KeyError (key : string)
| TypeError
| Http404                               (* django.http.Http404 *)
| ValidationError                       (* django.core.exceptions *)
| IntegrityError.                       (* django.db *)

Definition Result (A : Type) : Type := Exception + A.

(** [value[key]] on a value decoded from JSON: only a [dict] can be
    subscripted with a string. *)
Definition subscript (value : json) (key : string) : Result json :=
  match value with
  | JObj items =>
      match assoc key items with
      | Some v => inr v
      | None => inl (KeyError key)
      end
  | _ => inl TypeError
  end.

(** ** What the libraries decide

    Functions of Python, Django and DRF that the program calls and whose
    bodies are not part of it. *)
Class Framework : Type := {
  (** [uuid.UUID], the Python value of a [models.UUIDField]. *)
  UUID : Type;
  UUID_eq_dec :: EqDecision UUID;
  (** [UUIDField.to_python] on a value that is neither [None] nor a
      [UUID]; [None] here stands for its [ValidationError]. *)
  to_python : json -> option UUID;
  (** [str(u)] for a [UUID]. *)
  str_uuid : UUID -> string;
  (** [str(v)] for a decoded JSON value that is not a [str]. *)
  str_other : json -> string;
  (** [urllib.parse.urljoin]. *)
  urljoin : string -> string -> string;
  (** [to_internal_value] followed by the validators of a DRF field;
      [None] stands for a rejected value. *)
  EmailField : json -> option string;
  CharField : option nat -> json -> option string;
  URLField : json -> option string;
  IntegerField : json -> option Z;
}.

(** ** settings.py *)

Definition DYTE_API_BASE_URL : string := "https://api.cluster.dyte.in/v2".
Definition DYTE_ORG_ID : string := "YOUR_ORG_ID_HERE".
Definition DYTE_API_KEY : string := "YOUR_API_KEY_HERE".

(** ** models.py *)

Inductive Status : Type := PENDING | ACTIVE | DONE.

Global Instance Status_eq_dec : EqDecision Status.
Proof. solve_decision. Defined.

(** The fields [LiveVideoRequest] declares, in the order of the class.
    The primary key [id] that Django adds is the key of the table. *)
Record LiveVideoRequest `{Framework} : Type := {
  user_email : string;
  user_name : string;
  user_dyte_participant_id : UUID;
  dyte_meeting_id : UUID;
  support_user : option Z;
  support_user_dyte_participant_id : option UUID;
  status : Status;
  feedback : string;
  product : json;
}.

(** ** HTTP requests to the provider *)

Record Request : Type := {
  method : string;
  url : string;
  json_data : option json;
}.

(** [session.prepare_request] merges the session's settings into the
    request; the session of the module carries the credentials. *)
Record PreparedRequest : Type := {
  request : Request;
  auth : string * string;
}.

Inductive Reply : Type :=
| Answer (response : HttpResponse)
| NoAnswer.

(** The provider: given the requests it has received so far and a new
    one, its reply. *)
Definition Provider : Type := list PreparedRequest -> PreparedRequest -> Reply.

(** ** The state handlers run in *)

Record World `{Framework} : Type := {
  table : gmap Z LiveVideoRequest;
  sent : list PreparedRequest;
}.

(** A computation reads and changes the world and returns or raises;
    the world it leaves behind is kept in both cases. *)
Definition M `{Framework} (A : Type) : Type := World -> Result A * World.

Definition ret `{Framework} {A : Type} (a : A) : M A := fun w => (inr a, w).

Definition raise `{Framework} {A : Type} (e : Exception) : M A := fun w => (inl e, w).

Definition bind `{Framework} {A B : Type} (c : M A) (k : A -> M B) : M B :=
  fun w =>
    match c w with
    | (inr a, w') => k a w'
    | (inl e, w') => (inl e, w')
    end.

Definition lift `{Framework} {A : Type} (r : Result A) : M A := fun w => (r, w).

Notation "'let!' x ':=' c 'in' k" := (bind c (fun x => k))
  (at level 10, x name, c at level 100, k at level 200).

(** ** dyte_api_client.py *)

(** Python's [str(v)] as an f-string applies it. The identifiers the
    program formats are either still the decoded JSON of a provider
    response or a [UUID] read back from the table. *)
Inductive value `{Framework} : Type :=
| VJson (j : json)
| VUuid (u : UUID).

Definition str `{Framework} (v : value) : string :=
  match v with
  | VJson (JStr s) => s
  | VJson j => str_other j
  | VUuid u => str_uuid u
  end.


Module DyteAPIClient.

Section Client.
Context `{Framework} (provider : Provider).

(** [session.auth = (settings.DYTE_ORG_ID, settings.DYTE_API_KEY)] *)
Definition session_auth : string * string := (DYTE_ORG_ID, DYTE_API_KEY).

Definition prepare_request (r : Request) : PreparedRequest :=
  {| request := r; auth := session_auth |}.

(** [session.send]: the provider sees the request, and the request is
    on record from then on whatever the reply. *)
Definition send (p : PreparedRequest) : M HttpResponse :=
  fun w =>
    let w' := {| table := table w; sent := sent w ++ [p] |} in
    match provider (sent w) p with
    | Answer response => (inr response, w')
    | NoAnswer => (inl ConnectionError, w')
    end.

(** [Response.raise_for_status] of [requests]: an [HTTPError] holding
    the response for a client error (4xx) or a server error (5xx),
    nothing for any other status. *)
Definition raise_for_status (response : HttpResponse) : Result unit :=
  if ((400 <=? status_code response) && (status_code response <? 600))%Z
  then inl (HTTPError response)
  else inr tt.

(** [response.json()] *)
Definition response_json (response : HttpResponse) : Result json :=
  match content response with
  | JsonText j => inr j
  | OtherText _ => inl JSONDecodeError
  end.

Definition _create_url (path : string) : string :=
  urljoin DYTE_API_BASE_URL path.

Definition _fetch (r : Request) : M json :=
  let prepared_request := prepare_request r in
  let! response := send prepared_request in
  let! _ := lift (raise_for_status response) in
  let! envelope := lift (response_json response) in
  lift (subscript envelope "data").

Definition create_meeting_request
    (title preferred_region : string) (record_on_start : bool) : Request :=
  let data := JObj [("title", JStr title);
                    ("preferred_region", JStr preferred_region);
                    ("record_on_start", JBool record_on_start)] in
  {| method := "POST"; url := _create_url "meetings"; json_data := Some data |}.

Definition create_meeting
    (title preferred_region : string) (record_on_start : bool) : M json :=
  _fetch (create_meeting_request title preferred_region record_on_start).

Definition add_participant_request
    (meeting_id : value) (name preset_name custom_participant_id : string)
    : Request :=
  let data := JObj [("name", JStr name);
                    ("preset_name", JStr preset_name);
                    ("custom_participant_id", JStr custom_participant_id)] in
  {| method := "POST";
     url := _create_url ("meetings/" ++ str meeting_id ++ "/participants");
     json_data := Some data |}.

Definition add_participant
    (meeting_id : value) (name preset_name custom_participant_id : string)
    : M json :=
  _fetch (add_participant_request meeting_id name preset_name
                                  custom_participant_id).

Definition refresh_participant_token_request
    (meeting_id participant_id : value) : Request :=
  {| method := "POST";
     url := _create_url ("meetings/" ++ str meeting_id ++ "/participants/"
                         ++ str participant_id ++ "/token");
     json_data := None |}.

Definition refresh_participant_token (meeting_id participant_id : value)
    : M json :=
  _fetch (refresh_participant_token_request meeting_id participant_id).

End Client.

End DyteAPIClient.

(** ** serializers.py *)

(** An entry of [serializer.errors]: the code of DRF's message for a
    field, or the errors of a nested serializer. *)
#[warnings="-register-all"]
Inductive ErrorDetail : Type :=
| Code (code : string)
| Nested (errors : list (string * ErrorDetail)).

Definition Errors : Type := list (string * ErrorDetail).

Section Serializers.
Context `{Framework}.

(** A field declared with its DRF class only. *)
Definition field {A : Type} (to_internal_value : json -> option A) (v : json)
    : ErrorDetail + A :=
  match to_internal_value v with
  | Some a => inr a
  | None => inl (Code "invalid")
  end.

(** [Field.run_validation] of a required field: the key is absent from
    the payload, or its value is [None], or the field decides. *)
Definition required_field {A : Type} (to_internal_value : json -> ErrorDetail + A)
    (v : option json) : ErrorDetail + A :=
  match v with
  | None => inl (Code "required")
  | Some JNull => inl (Code "null")
  | Some v => to_internal_value v
  end.

(** The same with [required=False]: an absent key is skipped. *)
Definition optional_field {A : Type} (to_internal_value : json -> ErrorDetail + A)
    (v : option json) : ErrorDetail + option A :=
  match v with
  | None => inr None
  | Some JNull => inl (Code "null")
  | Some v =>
      match to_internal_value v with
      | inr a => inr (Some a)
      | inl e => inl e
      end
  end.

Definition error_of {A : Type} (name : string) (r : ErrorDetail + A) : Errors :=
  match r with
  | inl e => [(name, e)]
  | inr _ => []
  end.

(** [validated_data] of [ProductSerializer]. *)
Record Product : Type := {
  product_id : Z;
  product_title : string;
  product_image : string;
}.

Definition ProductSerializer (data : json) : ErrorDetail + Product :=
  match data with
  | JObj items =>
      let id := required_field (field IntegerField) (assoc "id" items) in
      let title := required_field (field (CharField None)) (assoc "title" items) in
      let image := required_field (field URLField) (assoc "image" items) in
      match id, title, image with
      | inr i, inr t, inr u =>
          inr {| product_id := i; product_title := t; product_image := u |}
      | _, _, _ =>
          inl (Nested (error_of "id" id ++ error_of "title" title
                       ++ error_of "image" image)%list)
      end
  | _ => inl (Nested [("non_field_errors", Code "invalid")])
  end.

(** [validated_data] of [LiveVideoRequestSerializer]: the fields of the
    model that are not read-only, [feedback] only when the payload has it. *)
Record ValidatedData : Type := {
  validated_user_email : string;
  validated_user_name : string;
  validated_feedback : option string;
  validated_product : Product;
}.

Definition LiveVideoRequestSerializer (data : json) : Errors + ValidatedData :=
  match data with
  | JObj items =>
      let user_email := required_field (field EmailField) (assoc "user_email" items) in
      let user_name :=
        required_field (field (CharField (Some 128%nat))) (assoc "user_name" items) in
      let feedback := optional_field (field (CharField None)) (assoc "feedback" items) in
      let product := required_field ProductSerializer (assoc "product" items) in
      match user_email, user_name, feedback, product with
      | inr e, inr n, inr f, inr p =>
          inr {| validated_user_email := e; validated_user_name := n;
                 validated_feedback := f; validated_product := p |}
      | _, _, _, _ =>
          inl (error_of "user_email" user_email ++ error_of "user_name" user_name
               ++ error_of "feedback" feedback ++ error_of "product" product)%list
      end
  | _ => inl [("non_field_errors", Code "invalid")]
  end.

End Serializers.

(** ** The table *)

Section Table.
Context `{Framework}.

(** The key the database gives the next row. No handler deletes a row,
    so it is one more than the largest key in use. *)
Definition next_pk (t : gmap Z LiveVideoRequest) : Z :=
  1 + foldr Z.max 0 (fst <$> map_to_list t).

(** What [UUIDField] writes for an attribute that holds a decoded JSON
    value: [NULL] for [None], else the [UUID] it converts to. *)
Definition get_db_prep_value (v : json) : Result (option UUID) :=
  match v with
  | JNull => inr None
  | _ =>
      match to_python v with
      | Some u => inr (Some u)
      | None => inl ValidationError
      end
  end.

(** [unique=True] on both identifiers. *)
Definition unique_ok (participant_id meeting_id : UUID)
    (t : gmap Z LiveVideoRequest) : Prop :=
  map_Forall (fun _ row => user_dyte_participant_id row <> participant_id
                           /\ dyte_meeting_id row <> meeting_id) t.

(** [LiveVideoRequest.objects.create(...)] with the keyword arguments of
    the view; the other columns take their defaults. The two identifiers
    are converted first, then the database checks NOT NULL and UNIQUE
    and inserts. *)
Definition objects_create (dyte_meeting_id_ : json) (user_name_ user_email_ : string)
    (status_ : Status) (user_dyte_participant_id_ : json) (product_ : json)
    : M (Z * LiveVideoRequest) :=
  let! participant_id := lift (get_db_prep_value user_dyte_participant_id_) in
  let! meeting_id := lift (get_db_prep_value dyte_meeting_id_) in
  match participant_id, meeting_id with
  | Some p, Some m =>
      fun w =>
        if decide (unique_ok p m (table w)) then
          let pk := next_pk (table w) in
          let row := {| user_email := user_email_;
                        user_name := user_name_;
                        user_dyte_participant_id := p;
                        dyte_meeting_id := m;
                        support_user := None;
                        support_user_dyte_participant_id := None;
                        status := status_;
                        feedback := EmptyString;
                        product := product_ |} in
          (inr (pk, row), {| table := <[pk := row]> (table w); sent := sent w |})
        else (inl IntegrityError, w)
  | _, _ => raise IntegrityError
  end.

(** [get_object_or_404(LiveVideoRequest, pk=pk)] *)
Definition get_object_or_404 (pk : Z) : M LiveVideoRequest :=
  fun w =>
    match table w !! pk with
    | Some row => (inr row, w)
    | None => (inl Http404, w)
    end.

(** The two assignments of [start] followed by [live_request.save()]:
    the row of [pk] is written with the new support participant, which
    is still the decoded JSON value, and the new status. *)
Definition save (pk : Z) (live_request : LiveVideoRequest)
    (support_user_dyte_participant_id_ : json) (status_ : Status) : M unit :=
  let! support_id := lift (get_db_prep_value support_user_dyte_participant_id_) in
  fun w =>
    let row := {| user_email := user_email live_request;
                  user_name := user_name live_request;
                  user_dyte_participant_id := user_dyte_participant_id live_request;
                  dyte_meeting_id := dyte_meeting_id live_request;
                  support_user := support_user live_request;
                  support_user_dyte_participant_id := support_id;
                  status := status_;
                  feedback := feedback live_request;
                  product := product live_request |} in
    (inr tt, {| table := <[pk := row]> (table w); sent := sent w |}).

(** [LiveVideoRequest.objects.filter(status=...)], in the order the
    database returns the rows. *)
Definition objects_filter (status_ : Status) (t : gmap Z LiveVideoRequest)
    : list (Z * LiveVideoRequest) :=
  filter (fun kr => status kr.2 = status_) (map_to_list t).

End Table.

(** ** views.py *)

(** [rest_framework.status] *)
Definition HTTP_200_OK : Z := 200.
Definition HTTP_201_CREATED : Z := 201.
Definition HTTP_400_BAD_REQUEST : Z := 400.

(** What a handler hands to [Response]: a serialized row with its key,
    the list of them, the token object, or the serializer's errors. *)
Inductive ResponseData `{Framework} : Type :=
| RecordData (pk : Z) (row : LiveVideoRequest)
| ListData (rows : list (Z * LiveVideoRequest))
| TokenData (dyte_auth_token : json)
| ErrorsData (errors : Errors).

Record Response `{Framework} : Type := {
  response_data : ResponseData;
  response_status : Z;
}.

Module LiveVideoRequestViewSet.

Section Views.
Context `{Framework} (provider : Provider).

Definition create (data : json) : M Response :=
  match LiveVideoRequestSerializer data with
  | inr validated_data =>
      let product_ := validated_product validated_data in
      let user_email_ := validated_user_email validated_data in
      let user_name_ := validated_user_name validated_data in
      let! dyte_meeting :=
        DyteAPIClient.create_meeting provider
          ("Live shopping for: " ++ product_title product_) "ap-south-1" false in
      let! meeting_id := lift (subscript dyte_meeting "id") in
      let! participant :=
        DyteAPIClient.add_participant provider
          (VJson meeting_id) user_name_ "video_shoping" user_email_ in
      let! participant_id := lift (subscript participant "id") in
      let! raw_product := lift (subscript data "product") in
      let! live_request :=
        objects_create meeting_id user_name_ user_email_ PENDING
                       participant_id raw_product in
      ret {| response_data := RecordData live_request.1 live_request.2;
             response_status := HTTP_201_CREATED |}
  | inl errors =>
      ret {| response_data := ErrorsData errors;
             response_status := HTTP_400_BAD_REQUEST |}
  end.

(** The test [if live_request.support_user_dyte_participant_id:] is on a
    column read back from the table: [None] is false and a [UUID] object
    is true whatever its digits. *)
Definition start (pk : Z) : M Response :=
  let! live_request := get_object_or_404 pk in
  match support_user_dyte_participant_id live_request with
  | Some support_id =>
      let! token :=
        DyteAPIClient.refresh_participant_token provider
          (VUuid (dyte_meeting_id live_request)) (VUuid support_id) in
      let! dyte_auth_token := lift (subscript token "token") in
      ret {| response_data := TokenData dyte_auth_token;
             response_status := HTTP_200_OK |}
  | None =>
      let! participant :=
        DyteAPIClient.add_participant provider
          (VUuid (dyte_meeting_id live_request))
          "Customer Support" "video_shoping" "customer_support" in
      let! participant_id := lift (subscript participant "id") in
      let! _ := save pk live_request participant_id ACTIVE in
      let! dyte_auth_token := lift (subscript participant "token") in
      ret {| response_data := TokenData dyte_auth_token;
             response_status := HTTP_201_CREATED |}
  end.

Definition user_token (pk : Z) : M Response :=
  let! live_request := get_object_or_404 pk in
  let! token :=
    DyteAPIClient.refresh_participant_token provider
      (VUuid (dyte_meeting_id live_request))
      (VUuid (user_dyte_participant_id live_request)) in
  let! dyte_auth_token := lift (subscript token "token") in
  ret {| response_data := TokenData dyte_auth_token;
         response_status := HTTP_200_OK |}.

Definition list : M Response :=
  fun w =>
    let live_requests := objects_filter PENDING (table w) in
    (inr {| response_data := ListData live_requests;
            response_status := HTTP_200_OK |}, w).

End Views.

End LiveVideoRequestViewSet.

(** ** The service as a transition system *)

(** The four routes of the router. *)
Inductive Operation : Type :=
| Create (data : json)
| ListPending
| Start (pk : Z)
| GetUserToken (pk : Z).

Section Service.
Context `{Framework} (provider : Provider).

Definition handle (op : Operation) : M Response :=
  match op with
  | Create data => LiveVideoRequestViewSet.create provider data
  | ListPending => LiveVideoRequestViewSet.list
  | Start pk => LiveVideoRequestViewSet.start provider pk
  | GetUserToken pk => LiveVideoRequestViewSet.user_token provider pk
  end.

Definition initial : World := {| table := ∅; sent := [] |}.

(** The worlds the service gets to from an empty table, one request
    after the other, whatever each request returns or raises. *)
Inductive reachable : World -> Prop :=
| reachable_initial : reachable initial
| reachable_step (op : Operation) (w : World) :
    reachable w -> reachable (handle op w).2.

End Service.

(** ** Reading a reply the way [_fetch] does *)

Section Replies.
Context `{Framework}.

(** What [_fetch] makes of a reply of the provider. *)
Definition fetched (reply : Reply) : Result json :=
  match reply with
  | NoAnswer => inl ConnectionError
  | Answer response =>
      match DyteAPIClient.raise_for_status response with
      | inl e => inl e
      | inr _ =>
          match DyteAPIClient.response_json response with
          | inl e => inl e
          | inr envelope => subscript envelope "data"
          end
      end
  end.

(** The world once one more request has gone out. *)
Definition record_sent (p : PreparedRequest) (w : World) : World :=
  {| table := table w; sent := sent w ++ [p] |}.

(** The request [start] sends when no support agent has joined yet. *)
Definition first_join_request (row : LiveVideoRequest) : PreparedRequest :=
  DyteAPIClient.prepare_request
    (DyteAPIClient.add_participant_request (VUuid (dyte_meeting_id row))
       "Customer Support" "video_shoping" "customer_support").

(** The request that refreshes the token of participant [u] of the
    meeting of [row]. *)
Definition refresh_request (row : LiveVideoRequest) (u : UUID) : PreparedRequest :=
  DyteAPIClient.prepare_request
    (DyteAPIClient.refresh_participant_token_request
       (VUuid (dyte_meeting_id row)) (VUuid u)).

(** A row after a support agent has joined as participant [u]. *)
Definition joined (row : LiveVideoRequest) (u : option UUID) : LiveVideoRequest :=
  {| user_email := user_email row;
     user_name := user_name row;
     user_dyte_participant_id := user_dyte_participant_id row;
     dyte_meeting_id := dyte_meeting_id row;
     support_user := support_user row;
     support_user_dyte_participant_id := u;
     status := ACTIVE;
     feedback := feedback row;
     product := product row |}.

(** The two requests [create] sends for validated data, the second one
    for the meeting identifier [meeting_id] of the first reply. *)
Definition meeting_request (v : ValidatedData) : PreparedRequest :=
  DyteAPIClient.prepare_request
    (DyteAPIClient.create_meeting_request
       ("Live shopping for: " ++ product_title (validated_product v))
       "ap-south-1" false).

Definition customer_request (v : ValidatedData) (meeting_id : json) : PreparedRequest :=
  DyteAPIClient.prepare_request
    (DyteAPIClient.add_participant_request (VJson meeting_id)
       (validated_user_name v) "video_shoping" (validated_user_email v)).

(** Whether a field's validation produced an error. *)
Definition rejected {A : Type} (r : ErrorDetail + A) : Prop :=
  match r with
  | inl _ => True
  | inr _ => False
  end.

End Replies.

Section Adapter.
Context `{Framework} (provider : Provider).

(** An operation [call] that sends the request [r] unwraps the
    provider's envelope: with a 4xx or 5xx reply it raises the
    [HTTPError] that holds the reply, status and body; with any other
    status and a JSON body that has a [data] item it returns that item.
    Either way the request is on record. *)
Definition unwraps (call : M json) (r : Request) : Prop :=
  forall (w : World) (response : HttpResponse),
    provider (sent w) (DyteAPIClient.prepare_request r) = Answer response ->
    (400 <= status_code response < 600 ->
     call w = (inl (HTTPError response),
               record_sent (DyteAPIClient.prepare_request r) w))
    /\ (~ 400 <= status_code response < 600 ->
        forall envelope data : json,
          content response = JsonText envelope ->
          subscript envelope "data" = inr data ->
          call w = (inr data, record_sent (DyteAPIClient.prepare_request r) w)).

End Adapter.

(** ** A concrete framework and provider *)

Module Scenario.

Fixpoint tally (n : nat) : string :=
  match n with
  | O => EmptyString
  | S m => "i" ++ tally m
  end.

Definition text (v : json) : option string :=
  match v with
  | JStr EmptyString => None
  | JStr s => Some s
  | _ => None
  end.

Definition number (v : json) : option Z :=
  match v with
  | JNum n => Some n
  | _ => None
  end.

(** Identifiers are kept as the text the provider sent; fields accept
    non-empty text and whole numbers. *)
Definition framework : Framework := {|
  UUID := string;
  UUID_eq_dec := _;
  to_python := text;
  str_uuid := fun u => u;
  str_other := fun _ => "?";
  urljoin := fun base path => base ++ "/" ++ path;
  EmailField := text;
  CharField := fun _ => text;
  URLField := text;
  IntegerField := number;
|}.

Definition envelope (n : nat) : json :=
  JObj [("success", JBool true);
        ("data", JObj [("id", JStr ("id-" ++ tally (S n)));
                       ("token", JStr ("token-" ++ tally (S n)))])].

(** A provider that answers every request with a fresh identifier and a
    fresh token: "id-i" and "token-i" first, "id-ii" and "token-ii" next. *)
Definition provider : Provider :=
  fun history _ =>
    Answer {| status_code := 200; content := JsonText (envelope (List.length history)) |}.

(** A provider that answers every request with a given status and the
    same envelope. *)
Definition provider_with_status (code : Z) : Provider :=
  fun history _ =>
    Answer {| status_code := code; content := JsonText (envelope 0) |}.

Definition shoes : json :=
  JObj [("id", JNum 1); ("title", JStr "Shoes"); ("image", JStr "http://x.com/1.png")].

Definition payload : json :=
  JObj [("user_name", JStr "Alice"); ("user_email", JStr "alice@x.com");
        ("product", shoes)].

(** The same without the requester's address and with a product that
    has no title. *)
Definition bad_payload : json :=
  JObj [("user_name", JStr "Alice");
        ("product", JObj [("id", JNum 1); ("image", JStr "http://x.com/1.png")])].

(** What the serializer makes of [payload]. *)
Definition validated_payload : ValidatedData :=
  {| validated_user_email := "alice@x.com";
     validated_user_name := "Alice";
     validated_feedback := None;
     validated_product :=
       {| product_id := 1; product_title := "Shoes";
          product_image := "http://x.com/1.png" |} |}.

Definition uuid (s : string) : @UUID framework := s.

(** The row of Alice's request, and the world after she has created it. *)
Definition alice : @LiveVideoRequest framework :=
  {| user_email := "alice@x.com";
     user_name := "Alice";
     user_dyte_participant_id := uuid "id-ii";
     dyte_meeting_id := uuid "id-i";
     support_user := None;
     support_user_dyte_participant_id := None;
     status := PENDING;
     feedback := EmptyString;
     product := shoes |}.

Definition after_create : @World framework :=
  (@LiveVideoRequestViewSet.create framework provider payload
     (@initial framework)).2.

End Scenario.

(** ** shopping-frontend

    The parts of the React application that are plain functions: the
    two reducers and the body the product button posts. *)

(** [useReducer]: every [dispatch] hands the current state and the
    action to the reducer; a reducer that throws ends the run with its
    message. *)
Fixpoint dispatches {S A : Type} (reducer : S -> A -> string + S)
    (state : S) (actions : list A) : string + S :=
  match actions with
  | [] => inr state
  | action :: rest =>
      match reducer state action with
      | inr state' => dispatches reducer state' rest
      | inl message => inl message
      end
  end.

(** components/Meeting.tsx *)
Module Meeting.

(** The two keys of the state object. A token is whatever the backend
    sent, [null] at first, or [undefined] ([None]) when an action has no
    [dyte_auth_token]. *)
Record State : Type := {
  dyte_auth_token : option json;
  show_meeting : bool;
}.

Record Action : Type := {
  type : string;
  action_dyte_auth_token : option json;
}.

Definition reducer (state : State) (action : Action) : string + State :=
  if String.eqb (type action) "set_dyte_auth_token" then
    inr {| dyte_auth_token := action_dyte_auth_token action;
           show_meeting := show_meeting state |}
  else if String.eqb (type action) "set_show_meeting" then
    inr {| dyte_auth_token := dyte_auth_token state;
           show_meeting := true |}
  else inl ("Invalid action type: " ++ type action).

(** [useReducer(reducer, { dyte_auth_token: null, show_meeting: false })] *)
Definition initial_state : State :=
  {| dyte_auth_token := Some JNull; show_meeting := false |}.

(** The token of the last [set_dyte_auth_token] among the actions, if
    there is one. *)
Fixpoint last_token (actions : list Action) : option (option json) :=
  match actions with
  | [] => None
  | action :: rest =>
      match last_token rest with
      | Some token => Some token
      | None =>
          if String.eqb (type action) "set_dyte_auth_token"
          then Some (action_dyte_auth_token action)
          else None
      end
  end.

End Meeting.

(** The two action types the reducer of the meeting knows. *)
Definition known_meeting_action (action : Meeting.Action) : Prop :=
  Meeting.type action = "set_dyte_auth_token"
  \/ Meeting.type action = "set_show_meeting".

(** pages/support/LiveRequests.tsx, for requests of any type [R]. *)
Module LiveRequestPage.

Record State (R : Type) : Type := {
  liveRequests : list R;
}.

Record Action (R : Type) : Type := {
  action_liveRequests : list R;
  type : string;
}.

Arguments liveRequests {R} _.
Arguments action_liveRequests {R} _.
Arguments type {R} _.

Definition reducer {R : Type} (state : State R) (action : Action R)
    : string + State R :=
  if String.eqb (type action) "set_liveRequests" then
    inr {| liveRequests := action_liveRequests action |}
  else inl ("Unknown action: " ++ type action).

End LiveRequestPage.

(** components/VideoShoppingButton.tsx *)
Module VideoShoppingButton.

(** The object [startVideoShopping] posts, as the backend decodes it:
    a key whose value is [undefined] is not in the JSON text, and a
    [URL] is sent as its text. *)
Definition startVideoShopping_data (id : Z) (title : string)
    (imageUrl : option string) : json :=
  JObj [("product",
         JObj ([("id", JNum id); ("title", JStr title)]
               ++ match imageUrl with
                  | Some href => [("image", JStr href)]
                  | None => []
                  end)%list)].

End VideoShoppingButton.

(** ** More replies and worlds to run the code on *)

Module Cases.

(** A provider that gives the same reply to every request. *)
Definition always (reply : Reply) : Provider := fun _ _ => reply.

(** A provider whose first reply is the scenario's and whose later
    replies all fail with status 503. *)
Definition failing_after_first : Provider :=
  fun history p =>
    match history with
    | [] => Scenario.provider history p
    | _ => Scenario.provider_with_status 503 history p
    end.

(** A reply with an identifier and no token. *)
Definition without_token : Reply :=
  Answer {| status_code := 201;
            content := JsonText (JObj [("data", JObj [("id", JStr "id-s")])]) |}.

(** Bob's request for the same shoes, stored under key 2. *)
Definition bob : @LiveVideoRequest Scenario.framework :=
  {| user_email := "bob@x.com";
     user_name := "Bob";
     user_dyte_participant_id := Scenario.uuid "id-b";
     dyte_meeting_id := Scenario.uuid "id-m";
     support_user := None;
     support_user_dyte_participant_id := None;
     status := PENDING;
     feedback := EmptyString;
     product := Scenario.shoes |}.

Definition two_requests : @World Scenario.framework :=
  {| table := <[2 := bob]> (@table Scenario.framework Scenario.after_create);
     sent := @sent Scenario.framework Scenario.after_create |}.

(** Alice's payload with keys a client has no say on. *)
Definition pushy_payload : json :=
  JObj [("status", JStr "DONE");
        ("user_name", JStr "Alice"); ("user_email", JStr "alice@x.com");
        ("product", Scenario.shoes)].

(** Alice's row closed by hand, with no support participant on it, as
    the only row of a table. *)
Definition closed_alice : @LiveVideoRequest Scenario.framework :=
  {| user_email := "alice@x.com";
     user_name := "Alice";
     user_dyte_participant_id := Scenario.uuid "id-ii";
     dyte_meeting_id := Scenario.uuid "id-i";
     support_user := None;
     support_user_dyte_participant_id := None;
     status := DONE;
     feedback := EmptyString;
     product := Scenario.shoes |}.

Definition closed_world : @World Scenario.framework :=
  {| table := {[5 := closed_alice]};
     sent := @sent Scenario.framework Scenario.after_create |}.

(** The world after Alice and then Bob have sent the scenario's payload. *)
Definition after_two_creates : @World Scenario.framework :=
  (@LiveVideoRequestViewSet.create Scenario.framework Scenario.provider
     Scenario.payload Scenario.after_create).2.

(** The two dispatches of [setupDyteMeeting] in Meeting.tsx, and a run
    with an action the reducer does not know. *)
Definition setup_actions (token : json) : list Meeting.Action :=
  [{| Meeting.type := "set_dyte_auth_token";
      Meeting.action_dyte_auth_token := Some token |};
   {| Meeting.type := "set_show_meeting";
      Meeting.action_dyte_auth_token := None |}].

Definition stray_action : Meeting.Action :=
  {| Meeting.type := "set_meeting"; Meeting.action_dyte_auth_token := None |}.

End Cases.

(** * Properties *)

(** ** The adapter *)

Section ClientFacts.
Context `{Framework} (provider : Provider).

(** [_fetch] sends exactly one request and returns what [fetched] reads
    from the reply. *)
Lemma fetch_eq (r : Request) (w : World) :
  DyteAPIClient._fetch provider r w =
  (fetched (provider (sent w) (DyteAPIClient.prepare_request r)),
   record_sent (DyteAPIClient.prepare_request r) w).
Proof.
  unfold DyteAPIClient._fetch, bind, lift, DyteAPIClient.send, fetched, record_sent.
  destruct (provider _ _) as [response|]; [|reflexivity].
  destruct (DyteAPIClient.raise_for_status response); [reflexivity|].
  destruct (DyteAPIClient.response_json response); reflexivity.
Qed.

Lemma raise_for_status_error (response : HttpResponse) :
  400 <= status_code response < 600 ->
  DyteAPIClient.raise_for_status response = inl (HTTPError response).
Proof.
  intros [Hlo Hhi]. unfold DyteAPIClient.raise_for_status.
  apply Z.leb_le in Hlo. apply Z.ltb_lt in Hhi. rewrite Hlo, Hhi. reflexivity.
Qed.

Lemma raise_for_status_quiet (response : HttpResponse) :
  ~ 400 <= status_code response < 600 ->
  DyteAPIClient.raise_for_status response = inr tt.
Proof.
  intros Hout. unfold DyteAPIClient.raise_for_status.
  destruct (400 <=? status_code response)%Z eqn:Hlo; [|reflexivity].
  destruct (status_code response <? 600)%Z eqn:Hhi; [|reflexivity].
  apply Z.leb_le in Hlo. apply Z.ltb_lt in Hhi. lia.
Qed.

Lemma fetched_error (response : HttpResponse) :
  400 <= status_code response < 600 ->
  fetched (Answer response) = inl (HTTPError response).
Proof.
  intros Hcode. unfold fetched. rewrite (raise_for_status_error _ Hcode). reflexivity.
Qed.

Lemma fetched_data (response : HttpResponse) (envelope data : json) :
  ~ 400 <= status_code response < 600 ->
  content response = JsonText envelope ->
  subscript envelope "data" = inr data ->
  fetched (Answer response) = inr data.
Proof.
  intros Hcode Hbody Hdata. unfold fetched.
  rewrite (raise_for_status_quiet _ Hcode).
  unfold DyteAPIClient.response_json. rewrite Hbody. exact Hdata.
Qed.

Lemma fetch_unwraps (r : Request) :
  unwraps provider (DyteAPIClient._fetch provider r) r.
Proof.
  intros w response Hreply. rewrite fetch_eq, Hreply. split.
  - intros Hcode. rewrite (fetched_error _ Hcode). reflexivity.
  - intros Hcode envelope data Hbody Hdata.
    rewrite (fetched_data _ _ _ Hcode Hbody Hdata). reflexivity.
Qed.

(** C9 (as amended). Each of [create_meeting], [add_participant] and
    [refresh_participant_token] raises an [HTTPError] carrying the
    provider's response (status code and body) whenever the status is a
    client or server error (400 to 599), and for every other status
    returns the [data] item of a JSON envelope that has one, not the
    envelope. *)
Theorem adapter_raises_on_error_status_and_unwraps_data
    (title preferred_region : string) (record_on_start : bool)
    (meeting_id participant_id : value)
    (name preset_name custom_participant_id : string) :
  unwraps provider (DyteAPIClient.create_meeting provider title preferred_region
                                        record_on_start)
          (DyteAPIClient.create_meeting_request title preferred_region
                                                record_on_start)
  /\ unwraps provider (DyteAPIClient.add_participant provider meeting_id name
                                            preset_name custom_participant_id)
             (DyteAPIClient.add_participant_request meeting_id name
                                                    preset_name
                                                    custom_participant_id)
  /\ unwraps provider (DyteAPIClient.refresh_participant_token provider meeting_id
                                                      participant_id)
             (DyteAPIClient.refresh_participant_token_request meeting_id
                                                              participant_id).
Proof.
  split; [|split]; apply fetch_unwraps.
Qed.

End ClientFacts.

(** ** The handlers *)

Section ViewFacts.
Context `{Framework} (provider : Provider).

Lemma get_object_or_404_found (pk : Z) (w : World) (row : LiveVideoRequest) :
  table w !! pk = Some row -> get_object_or_404 pk w = (inr row, w).
Proof. intros Hrow. unfold get_object_or_404. rewrite Hrow. reflexivity. Qed.

Lemma get_object_or_404_missing (pk : Z) (w : World) :
  table w !! pk = None -> get_object_or_404 pk w = (inl Http404, w).
Proof. intros Hrow. unfold get_object_or_404. rewrite Hrow. reflexivity. Qed.

(** [start] when a support participant is already on the row. *)
Lemma start_rejoin_eq (pk : Z) (w : World) (row : LiveVideoRequest) (u : UUID) :
  table w !! pk = Some row ->
  support_user_dyte_participant_id row = Some u ->
  LiveVideoRequestViewSet.start provider pk w =
  (match fetched (provider (sent w) (refresh_request row u)) with
   | inl e => inl e
   | inr token =>
       match subscript token "token" with
       | inl e => inl e
       | inr t => inr {| response_data := TokenData t;
                         response_status := HTTP_200_OK |}
       end
   end, record_sent (refresh_request row u) w).
Proof.
  intros Hrow Hsupport. unfold LiveVideoRequestViewSet.start, bind.
  rewrite (get_object_or_404_found _ _ _ Hrow), Hsupport.
  unfold DyteAPIClient.refresh_participant_token. rewrite fetch_eq.
  fold (refresh_request row u).
  destruct (fetched _) as [e|token]; [reflexivity|].
  unfold lift, ret. destruct (subscript token "token"); reflexivity.
Qed.

(** [start] when no support participant is on the row yet. *)
Lemma start_first_join_eq (pk : Z) (w : World) (row : LiveVideoRequest) :
  table w !! pk = Some row ->
  support_user_dyte_participant_id row = None ->
  LiveVideoRequestViewSet.start provider pk w =
  let w1 := record_sent (first_join_request row) w in
  match fetched (provider (sent w) (first_join_request row)) with
  | inl e => (inl e, w1)
  | inr participant =>
      match subscript participant "id" with
      | inl e => (inl e, w1)
      | inr participant_id =>
          match get_db_prep_value participant_id with
          | inl e => (inl e, w1)
          | inr support_id =>
              let w2 := {| table := <[pk := joined row support_id]> (table w);
                           sent := sent w1 |} in
              match subscript participant "token" with
              | inl e => (inl e, w2)
              | inr t => (inr {| response_data := TokenData t;
                                 response_status := HTTP_201_CREATED |}, w2)
              end
          end
      end
  end.
Proof.
  intros Hrow Hsupport. unfold LiveVideoRequestViewSet.start, bind.
  rewrite (get_object_or_404_found _ _ _ Hrow), Hsupport.
  unfold DyteAPIClient.add_participant. rewrite fetch_eq.
  fold (first_join_request row). cbv zeta.
  destruct (fetched _) as [e|participant]; [reflexivity|].
  unfold lift, ret, save, bind.
  destruct (subscript participant "id") as [e|participant_id]; [reflexivity|].
  destruct (get_db_prep_value participant_id) as [e|support_id]; [reflexivity|].
  unfold joined. cbn [table sent record_sent].
  destruct (subscript participant "token"); reflexivity.
Qed.

(** [user_token] on a stored row. *)
Lemma user_token_eq (pk : Z) (w : World) (row : LiveVideoRequest) :
  table w !! pk = Some row ->
  LiveVideoRequestViewSet.user_token provider pk w =
  (match fetched (provider (sent w)
                    (refresh_request row (user_dyte_participant_id row))) with
   | inl e => inl e
   | inr token =>
       match subscript token "token" with
       | inl e => inl e
       | inr t => inr {| response_data := TokenData t;
                         response_status := HTTP_200_OK |}
       end
   end, record_sent (refresh_request row (user_dyte_participant_id row)) w).
Proof.
  intros Hrow. unfold LiveVideoRequestViewSet.user_token, bind.
  rewrite (get_object_or_404_found _ _ _ Hrow).
  unfold DyteAPIClient.refresh_participant_token. rewrite fetch_eq.
  fold (refresh_request row (user_dyte_participant_id row)).
  destruct (fetched _) as [e|token]; [reflexivity|].
  unfold lift, ret. destruct (subscript token "token"); reflexivity.
Qed.



(** C6. On a stored row [user_token] sends one request, the token
    refresh for the row's own meeting and customer participant, and
    answers 200 with the token of the provider's reply to that very
    request; the table is left as it was, so a second call finds the
    same row, refreshes again and answers with the token of the second
    reply. *)
Theorem user_token_refreshes_and_keeps_the_row
    (pk : Z) (w : World) (row : LiveVideoRequest) :
  table w !! pk = Some row ->
  let r := refresh_request row (user_dyte_participant_id row) in
  let w1 := (LiveVideoRequestViewSet.user_token provider pk w).2 in
  let w2 := (LiveVideoRequestViewSet.user_token provider pk w1).2 in
  w1 = record_sent r w
  /\ w2 = record_sent r w1
  /\ table w1 = table w /\ table w2 = table w
  /\ table w1 !! pk = Some row /\ table w2 !! pk = Some row
  /\ (forall token t : json,
        fetched (provider (sent w) r) = inr token ->
        subscript token "token" = inr t ->
        (LiveVideoRequestViewSet.user_token provider pk w).1 =
        inr {| response_data := TokenData t; response_status := HTTP_200_OK |})
  /\ (forall token t : json,
        fetched (provider (sent w ++ [r])%list r) = inr token ->
        subscript token "token" = inr t ->
        (LiveVideoRequestViewSet.user_token provider pk w1).1 =
        inr {| response_data := TokenData t; response_status := HTTP_200_OK |}).
Proof.
  intros Hrow r w1 w2.
  assert (Hw1 : w1 = record_sent r w).
  { subst w1 r. rewrite (user_token_eq _ _ _ Hrow). reflexivity. }
  assert (Hrow1 : table w1 !! pk = Some row) by (rewrite Hw1; exact Hrow).
  assert (Hw2 : w2 = record_sent r w1).
  { subst w2 r. rewrite (user_token_eq _ _ _ Hrow1). reflexivity. }
  split; [exact Hw1|]. split; [exact Hw2|].
  split; [rewrite Hw1; reflexivity|].
  split; [rewrite Hw2, Hw1; reflexivity|].
  split; [exact Hrow1|]. split; [rewrite Hw2; exact Hrow1|].
  split.
  - intros token t Hreply Htoken.
    rewrite (user_token_eq _ _ _ Hrow). cbn [fst]. fold r.
    rewrite Hreply, Htoken. reflexivity.
  - intros token t Hreply Htoken.
    rewrite (user_token_eq _ _ _ Hrow1). cbn [fst]. fold r.
    rewrite Hw1 at 1. cbn [sent record_sent].
    rewrite Hreply, Htoken. reflexivity.
Qed.

(** C10. When no support participant is on the row, the one request
    [start] sends is [add_participant] for the row's meeting with the
    display name "Customer Support", the preset "video_shoping" and the
    external participant id "customer_support"; the body of that request
    is the same for every key and every row. *)
Theorem first_join_sends_constant_participant
    (pk : Z) (w : World) (row : LiveVideoRequest) :
  table w !! pk = Some row ->
  support_user_dyte_participant_id row = None ->
  sent (LiveVideoRequestViewSet.start provider pk w).2 =
    (sent w ++ [first_join_request row])%list
  /\ first_join_request row =
       DyteAPIClient.prepare_request
         (DyteAPIClient.add_participant_request (VUuid (dyte_meeting_id row))
            "Customer Support" "video_shoping" "customer_support")
  /\ (forall other : LiveVideoRequest,
        json_data (request (first_join_request other)) =
        Some (JObj [("name", JStr "Customer Support");
                    ("preset_name", JStr "video_shoping");
                    ("custom_participant_id", JStr "customer_support")])).
Proof.
  intros Hrow Hsupport. split; [|split; reflexivity].
  rewrite (start_first_join_eq _ _ _ Hrow Hsupport). cbv zeta.
  destruct (fetched _) as [e|participant]; [reflexivity|].
  destruct (subscript participant "id") as [e|participant_id]; [reflexivity|].
  destruct (get_db_prep_value participant_id) as [e|support_id]; [reflexivity|].
  destruct (subscript participant "token"); reflexivity.
Qed.

(** C8. On a stored row, when the provider's reply carries what the
    branch reads, [start] answers 201 with the token of the newly added
    participant if no support participant was on the row, and 200 with
    the refreshed token if one was; and whenever [start] answers at all,
    the answer is a token with 201 in the first case and 200 in the
    second. *)
Theorem start_status_code_tells_first_join_from_rejoin
    (pk : Z) (w : World) (row : LiveVideoRequest) :
  table w !! pk = Some row ->
  (forall (participant participant_id t : json) (support_id : option UUID),
     support_user_dyte_participant_id row = None ->
     fetched (provider (sent w) (first_join_request row)) = inr participant ->
     subscript participant "id" = inr participant_id ->
     get_db_prep_value participant_id = inr support_id ->
     subscript participant "token" = inr t ->
     (LiveVideoRequestViewSet.start provider pk w).1 =
     inr {| response_data := TokenData t; response_status := 201 |})
  /\ (forall (u : UUID) (token t : json),
        support_user_dyte_participant_id row = Some u ->
        fetched (provider (sent w) (refresh_request row u)) = inr token ->
        subscript token "token" = inr t ->
        (LiveVideoRequestViewSet.start provider pk w).1 =
        inr {| response_data := TokenData t; response_status := 200 |})
  /\ (forall response : Response,
        (LiveVideoRequestViewSet.start provider pk w).1 = inr response ->
        exists t : json,
          response_data response = TokenData t
          /\ response_status response =
             match support_user_dyte_participant_id row with
             | None => 201
             | Some _ => 200
             end).
Proof.
  intros Hrow. split; [|split].
  - intros participant participant_id t support_id Hsupport Hreply Hid Hprep Htoken.
    rewrite (start_first_join_eq _ _ _ Hrow Hsupport). cbv zeta.
    rewrite Hreply, Hid, Hprep, Htoken. reflexivity.
  - intros u token t Hsupport Hreply Htoken.
    rewrite (start_rejoin_eq _ _ _ _ Hrow Hsupport). cbn [fst].
    rewrite Hreply, Htoken. reflexivity.
  - intros response.
    destruct (support_user_dyte_participant_id row) as [u|] eqn:Hsupport.
    + rewrite (start_rejoin_eq _ _ _ _ Hrow Hsupport). cbn [fst].
      destruct (fetched _) as [e|token]; [discriminate|].
      destruct (subscript token "token") as [e|t]; [discriminate|].
      intros [= <-]. exists t. split; reflexivity.
    + rewrite (start_first_join_eq _ _ _ Hrow Hsupport). cbv zeta.
      destruct (fetched _) as [e|participant]; [discriminate|].
      destruct (subscript participant "id") as [e|participant_id]; [discriminate|].
      destruct (get_db_prep_value participant_id) as [e|support_id]; [discriminate|].
      destruct (subscript participant "token") as [e|t]; [discriminate|].
      intros [= <-]. exists t. split; reflexivity.
Qed.

(** C1. On a PENDING row with no support participant, when the
    provider's reply to [add_participant] carries an identifier that the
    table accepts and a token, a first [start] answers 201 with that
    token and writes the row back ACTIVE with that identifier as support
    participant. A second [start] then sends one request, the token
    refresh for that same participant, changes no row, and answers 200
    with the token of the provider's reply to it. *)
Theorem start_twice_keeps_the_support_participant
    (pk : Z) (w : World) (row : LiveVideoRequest)
    (participant participant_id t : json) (u : UUID) :
  table w !! pk = Some row ->
  status row = PENDING ->
  support_user_dyte_participant_id row = None ->
  fetched (provider (sent w) (first_join_request row)) = inr participant ->
  subscript participant "id" = inr participant_id ->
  get_db_prep_value participant_id = inr (Some u) ->
  subscript participant "token" = inr t ->
  let w1 := {| table := <[pk := joined row (Some u)]> (table w);
               sent := (sent w ++ [first_join_request row])%list |} in
  let second := LiveVideoRequestViewSet.start provider pk w1 in
  LiveVideoRequestViewSet.start provider pk w =
    (inr {| response_data := TokenData t; response_status := 201 |}, w1)
  /\ (exists row1 : LiveVideoRequest,
        table w1 !! pk = Some row1
        /\ status row1 = ACTIVE
        /\ support_user_dyte_participant_id row1 = Some u
        /\ second.2 = record_sent (refresh_request row1 u) w1
        /\ table second.2 !! pk = Some row1)
  /\ table second.2 = table w1
  /\ (forall token t2 : json,
        fetched (provider (sent w1) (refresh_request row u)) = inr token ->
        subscript token "token" = inr t2 ->
        second.1 = inr {| response_data := TokenData t2; response_status := 200 |}).
Proof.
  intros Hrow Hstatus Hsupport Hreply Hid Hprep Htoken w1 second.
  assert (Hrow1 : table w1 !! pk = Some (joined row (Some u))).
  { subst w1. cbn [table]. apply lookup_insert_eq. }
  assert (Hsecond : second =
    (match fetched (provider (sent w1) (refresh_request row u)) with
     | inl e => inl e
     | inr token =>
         match subscript token "token" with
         | inl e => inl e
         | inr t2 => inr {| response_data := TokenData t2;
                            response_status := HTTP_200_OK |}
         end
     end, record_sent (refresh_request row u) w1)).
  { subst second. rewrite (start_rejoin_eq pk w1 _ u Hrow1); reflexivity. }
  split; [|split; [|split]].
  - rewrite (start_first_join_eq _ _ _ Hrow Hsupport). cbv zeta.
    rewrite Hreply, Hid, Hprep, Htoken. reflexivity.
  - exists (joined row (Some u)). rewrite Hsecond. cbn [snd].
    repeat split; try reflexivity; exact Hrow1.
  - rewrite Hsecond. reflexivity.
  - intros token t2 Hreply2 Htoken2. rewrite Hsecond. cbn [fst].
    rewrite Hreply2, Htoken2. reflexivity.
Qed.

End ViewFacts.

(** ** Validation of a create payload *)

Section CreateFacts.
Context `{Framework} (provider : Provider).

Lemma error_of_keys {A : Type} (name other : string) (r : ErrorDetail + A) :
  other ∈ keys (error_of name r) <-> other = name /\ rejected r.
Proof.
  destruct r as [e|a]; cbn.
  - rewrite list_elem_of_singleton. tauto.
  - rewrite elem_of_nil. tauto.
Qed.

Lemma keys_app {A : Type} (l1 l2 : list (string * A)) :
  keys (l1 ++ l2) = (keys l1 ++ keys l2)%list.
Proof. unfold keys. apply map_app. Qed.

(** An object payload is valid exactly when none of its four writable
    fields is rejected. *)
Lemma serializer_valid_iff (items : list (string * json)) :
  (exists v, LiveVideoRequestSerializer (JObj items) = inr v) <->
  ~ rejected (required_field (field EmailField) (assoc "user_email" items))
  /\ ~ rejected (required_field (field (CharField (Some 128%nat)))
                                (assoc "user_name" items))
  /\ ~ rejected (optional_field (field (CharField None)) (assoc "feedback" items))
  /\ ~ rejected (required_field ProductSerializer (assoc "product" items)).
Proof.
  unfold LiveVideoRequestSerializer.
  destruct (required_field (field EmailField) _) as [e1|a1];
    destruct (required_field (field (CharField (Some 128%nat))) _) as [e2|a2];
    destruct (optional_field (field (CharField None)) _) as [e3|a3];
    destruct (required_field ProductSerializer _) as [e4|a4]; cbn;
    split; try (intros [v Hv]; discriminate); try tauto.
  intros _. eexists. reflexivity.
Qed.

(** The errors of an object payload name exactly the rejected fields. *)
Lemma serializer_errors_keys (items : list (string * json)) (errors : Errors) :
  LiveVideoRequestSerializer (JObj items) = inl errors ->
  errors <> []
  /\ forall name : string,
       name ∈ keys errors <->
       (name = "user_email"
        /\ rejected (required_field (field EmailField) (assoc "user_email" items)))
       \/ (name = "user_name"
           /\ rejected (required_field (field (CharField (Some 128%nat)))
                                       (assoc "user_name" items)))
       \/ (name = "feedback"
           /\ rejected (optional_field (field (CharField None))
                                       (assoc "feedback" items)))
       \/ (name = "product"
           /\ rejected (required_field ProductSerializer (assoc "product" items))).
Proof.
  unfold LiveVideoRequestSerializer.
  set (r1 := required_field (field EmailField) _).
  set (r2 := required_field (field (CharField (Some 128%nat))) _).
  set (r3 := optional_field (field (CharField None)) _).
  set (r4 := required_field ProductSerializer _).
  intros Hser.
  assert (Herrors : errors = (error_of "user_email" r1 ++ error_of "user_name" r2
                              ++ error_of "feedback" r3 ++ error_of "product" r4)%list
                    /\ (rejected r1 \/ rejected r2 \/ rejected r3 \/ rejected r4)).
  { destruct r1, r2, r3, r4; cbn in *; try discriminate;
      injection Hser as <-; split; auto. }
  destruct Herrors as [-> Hsome]. split.
  - destruct r1, r2, r3, r4; cbn in *; try discriminate; tauto.
  - intros name. rewrite !keys_app, !elem_of_app, !error_of_keys. tauto.
Qed.

(** The errors of an object given as product name exactly its rejected
    fields. *)
Lemma product_errors_keys (items : list (string * json)) (detail : ErrorDetail) :
  ProductSerializer (JObj items) = inl detail ->
  exists nested : Errors,
    detail = Nested nested
    /\ nested <> []
    /\ forall name : string,
         name ∈ keys nested <->
         (name = "id"
          /\ rejected (required_field (field IntegerField) (assoc "id" items)))
         \/ (name = "title"
             /\ rejected (required_field (field (CharField None))
                                         (assoc "title" items)))
         \/ (name = "image"
             /\ rejected (required_field (field URLField) (assoc "image" items))).
Proof.
  unfold ProductSerializer.
  set (r1 := required_field (field IntegerField) _).
  set (r2 := required_field (field (CharField None)) _).
  set (r3 := required_field (field URLField) _).
  intros Hser.
  exists (error_of "id" r1 ++ error_of "title" r2 ++ error_of "image" r3)%list.
  split; [|split].
  - destruct r1, r2, r3; cbn in *; try discriminate; injection Hser as <-; reflexivity.
  - destruct r1, r2, r3; cbn in *; discriminate.
  - intros name. rewrite !keys_app, !elem_of_app, !error_of_keys. tauto.
Qed.

(** C7. When the serializer rejects the payload, [create] answers 400
    with the serializer's errors and leaves the world as it was: nothing
    has been sent to the provider and no row has been written. The
    errors are not empty; for an object payload their keys are exactly
    the writable fields whose validation fails, and the entry of a
    product that is an object lists exactly its own failing fields. *)
Theorem create_rejects_invalid_payload_without_effect
    (data : json) (errors : Errors) (w : World) :
  LiveVideoRequestSerializer data = inl errors ->
  LiveVideoRequestViewSet.create provider data w =
    (inr {| response_data := ErrorsData errors;
            response_status := HTTP_400_BAD_REQUEST |}, w)
  /\ errors <> []
  /\ (forall items : list (string * json),
        data = JObj items ->
        (forall name : string,
           name ∈ keys errors <->
           (name = "user_email"
            /\ rejected (required_field (field EmailField)
                                        (assoc "user_email" items)))
           \/ (name = "user_name"
               /\ rejected (required_field (field (CharField (Some 128%nat)))
                                           (assoc "user_name" items)))
           \/ (name = "feedback"
               /\ rejected (optional_field (field (CharField None))
                                           (assoc "feedback" items)))
           \/ (name = "product"
               /\ rejected (required_field ProductSerializer
                                           (assoc "product" items))))
        /\ (forall (fields : list (string * json)) (detail : ErrorDetail),
              assoc "product" items = Some (JObj fields) ->
              ("product", detail) ∈ errors ->
              exists nested : Errors,
                detail = Nested nested
                /\ nested <> []
                /\ forall name : string,
                     name ∈ keys nested <->
                     (name = "id"
                      /\ rejected (required_field (field IntegerField)
                                                  (assoc "id" fields)))
                     \/ (name = "title"
                         /\ rejected (required_field (field (CharField None))
                                                     (assoc "title" fields)))
                     \/ (name = "image"
                         /\ rejected (required_field (field URLField)
                                                     (assoc "image" fields))))).
Proof.
  intros Hser. split; [|split].
  - unfold LiveVideoRequestViewSet.create. rewrite Hser. reflexivity.
  - destruct data; try (cbn in Hser; injection Hser as <-; discriminate).
    apply (serializer_errors_keys _ _ Hser).
  - intros items ->. split; [apply (serializer_errors_keys _ _ Hser)|].
    intros fields detail Hproduct Hin.
    apply (product_errors_keys fields).
    revert Hser Hin. unfold LiveVideoRequestSerializer. rewrite Hproduct.
    cbn [required_field].
    destruct (required_field (field EmailField) _),
             (required_field (field (CharField (Some 128%nat))) _),
             (optional_field (field (CharField None)) _),
             (ProductSerializer (JObj fields)) as [e'|p];
      cbn; intros Hser Hin; try discriminate; injection Hser as <-;
      repeat (apply elem_of_cons in Hin as [Hin|Hin]; [try discriminate|]);
      try (apply elem_of_nil in Hin; contradiction);
      injection Hin as ->; reflexivity.
Qed.

(** ** Creating a row *)

Lemma foldr_max_bound (l : list Z) (k : Z) : k ∈ l -> k <= foldr Z.max 0 l.
Proof.
  induction l as [|x l IH]; intros Hin.
  - apply elem_of_nil in Hin. contradiction.
  - cbn. apply elem_of_cons in Hin as [->|Hin]; [lia|].
    specialize (IH Hin). lia.
Qed.

(** The key of the next row is not in use. *)
Lemma next_pk_fresh (t : gmap Z LiveVideoRequest) : t !! next_pk t = None.
Proof.
  destruct (t !! next_pk t) as [row|] eqn:Hrow; [|reflexivity].
  exfalso. apply elem_of_map_to_list in Hrow.
  assert (Hin : next_pk t ∈ (map_to_list t).*1).
  { apply list_elem_of_fmap. exists (next_pk t, row). split; [reflexivity|exact Hrow]. }
  apply foldr_max_bound in Hin. unfold next_pk in Hin at 1. lia.
Qed.

(** [objects.create] raises and writes nothing, or both identifiers
    convert, are new to the table, and one row goes in under a new key. *)
Lemma objects_create_cases (meeting_id : json) (name email : string)
    (participant_id raw : json) (w : World) :
  (exists e : Exception,
     objects_create meeting_id name email PENDING participant_id raw w = (inl e, w))
  \/ (exists (up um : UUID) (row : LiveVideoRequest),
        get_db_prep_value participant_id = inr (Some up)
        /\ get_db_prep_value meeting_id = inr (Some um)
        /\ unique_ok up um (table w)
        /\ row = {| user_email := email;
                    user_name := name;
                    user_dyte_participant_id := up;
                    dyte_meeting_id := um;
                    support_user := None;
                    support_user_dyte_participant_id := None;
                    status := PENDING;
                    feedback := EmptyString;
                    product := raw |}
        /\ objects_create meeting_id name email PENDING participant_id raw w =
           (inr (next_pk (table w), row),
            {| table := <[next_pk (table w) := row]> (table w); sent := sent w |})).
Proof.
  unfold objects_create, bind, lift, raise.
  destruct (get_db_prep_value participant_id) as [e|[up|]]; [left; eauto| |].
  - destruct (get_db_prep_value meeting_id) as [e|[um|]]; [left; eauto| |left; eauto].
    destruct (decide (unique_ok up um (table w))) as [Hunique|Hclash];
      [|left; eauto].
    right. eexists up, um, _.
    split; [reflexivity|]. split; [reflexivity|]. split; [exact Hunique|].
    split; reflexivity.
  - destruct (get_db_prep_value meeting_id) as [e|[um|]]; left; eauto.
Qed.

(** [create] on a payload the serializer accepts. *)
Lemma create_valid_eq (data : json) (v : ValidatedData) (w : World) :
  LiveVideoRequestSerializer data = inr v ->
  LiveVideoRequestViewSet.create provider data w =
  let w1 := record_sent (meeting_request v) w in
  match fetched (provider (sent w) (meeting_request v)) with
  | inl e => (inl e, w1)
  | inr dyte_meeting =>
      match subscript dyte_meeting "id" with
      | inl e => (inl e, w1)
      | inr meeting_id =>
          let w2 := record_sent (customer_request v meeting_id) w1 in
          match fetched (provider (sent w1) (customer_request v meeting_id)) with
          | inl e => (inl e, w2)
          | inr participant =>
              match subscript participant "id" with
              | inl e => (inl e, w2)
              | inr participant_id =>
                  match subscript data "product" with
                  | inl e => (inl e, w2)
                  | inr raw =>
                      match objects_create meeting_id (validated_user_name v)
                              (validated_user_email v) PENDING participant_id
                              raw w2 with
                      | (inl e, w3) => (inl e, w3)
                      | (inr live_request, w3) =>
                          (inr {| response_data :=
                                    RecordData live_request.1 live_request.2;
                                  response_status := HTTP_201_CREATED |}, w3)
                      end
                  end
              end
          end
      end
  end.
Proof.
  intros Hser. unfold LiveVideoRequestViewSet.create. rewrite Hser.
  unfold bind, DyteAPIClient.create_meeting, DyteAPIClient.add_participant.
  rewrite fetch_eq. fold (meeting_request v). cbv zeta.
  destruct (fetched _) as [e|dyte_meeting]; [reflexivity|].
  unfold lift at 1.
  destruct (subscript dyte_meeting "id") as [e|meeting_id]; [reflexivity|].
  rewrite fetch_eq. fold (customer_request v meeting_id).
  destruct (fetched _) as [e|participant]; [reflexivity|].
  unfold lift at 1.
  destruct (subscript participant "id") as [e|participant_id]; [reflexivity|].
  unfold lift at 1.
  destruct (subscript data "product") as [e|raw]; [reflexivity|].
  destruct (objects_create _ _ _ _ _ _ _) as [[e|live_request] w3]; reflexivity.
Qed.

(** A payload the serializer accepts is an object with a product. *)
Lemma valid_payload_has_product (data : json) (v : ValidatedData) :
  LiveVideoRequestSerializer data = inr v ->
  exists raw : json, subscript data "product" = inr raw.
Proof.
  destruct data; try discriminate. unfold LiveVideoRequestSerializer, subscript.
  destruct (assoc "product" items) as [raw|]; [eauto|].
  cbn [required_field].
  destruct (required_field (field EmailField) _),
           (required_field (field (CharField (Some 128%nat))) _),
           (optional_field (field (CharField None)) _); discriminate.
Qed.

(** Whatever the payload and the replies, [create] leaves the table as
    it was or adds one PENDING row under a new key, with the identifiers
    of the two replies. *)
Lemma create_table_change (data : json) (w : World) :
  let out := LiveVideoRequestViewSet.create provider data w in
      table out.2 = table w
      \/ exists (v : ValidatedData)
                (dyte_meeting meeting_id participant participant_id : json)
                (pk : Z) (row : LiveVideoRequest),
           LiveVideoRequestSerializer data = inr v
           /\ fetched (provider (sent w) (meeting_request v)) = inr dyte_meeting
           /\ subscript dyte_meeting "id" = inr meeting_id
           /\ fetched (provider (sent w ++ [meeting_request v])%list
                                (customer_request v meeting_id)) = inr participant
           /\ subscript participant "id" = inr participant_id
           /\ get_db_prep_value meeting_id = inr (Some (dyte_meeting_id row))
           /\ get_db_prep_value participant_id =
              inr (Some (user_dyte_participant_id row))
           /\ status row = PENDING
           /\ table w !! pk = None
           /\ table out.2 = <[pk := row]> (table w)
           /\ out.1 = inr {| response_data := RecordData pk row;
                             response_status := HTTP_201_CREATED |}.
Proof.
  cbv zeta.
  destruct (LiveVideoRequestSerializer data) as [errors|v] eqn:Hser.
  { left. unfold LiveVideoRequestViewSet.create. rewrite Hser. reflexivity. }
  rewrite (create_valid_eq _ _ _ Hser). cbv zeta.
  cbn [sent table record_sent].
  destruct (fetched (provider (sent w) (meeting_request v)))
    as [e|dyte_meeting] eqn:Hmeeting; [left; reflexivity|].
  destruct (subscript dyte_meeting "id") as [e|meeting_id] eqn:Hmid;
    [left; reflexivity|].
  destruct (fetched (provider _ (customer_request v meeting_id)))
    as [e|participant] eqn:Hcustomer; [left; reflexivity|].
  destruct (subscript participant "id") as [e|participant_id] eqn:Hpid;
    [left; reflexivity|].
  destruct (subscript data "product") as [e|raw] eqn:Hraw; [left; reflexivity|].
  destruct (objects_create_cases meeting_id (validated_user_name v)
              (validated_user_email v) participant_id raw
              (record_sent (customer_request v meeting_id)
                           (record_sent (meeting_request v) w)))
    as [[e Hcreate]|(up & um & row & Hup & Hum & _ & Hrow & Hcreate)];
    rewrite Hcreate; [left; reflexivity|].
  right. cbn [table sent record_sent fst snd].
  exists v, dyte_meeting, meeting_id, participant, participant_id,
         (next_pk (table w)), row.
  rewrite Hrow. cbn [dyte_meeting_id user_dyte_participant_id status].
  repeat split; try assumption; try reflexivity. apply next_pk_fresh.
Qed.


End CreateFacts.

(** ** The life of a row *)

Section Lifecycle.
Context `{Framework} (provider : Provider).

Lemma start_table_cases (pk : Z) (w : World) :
  table (LiveVideoRequestViewSet.start provider pk w).2 = table w
  \/ exists (row : LiveVideoRequest) (support_id : option UUID),
       table w !! pk = Some row
       /\ support_user_dyte_participant_id row = None
       /\ table (LiveVideoRequestViewSet.start provider pk w).2 =
          <[pk := joined row support_id]> (table w).
Proof.
  destruct (table w !! pk) as [row|] eqn:Hrow.
  - destruct (support_user_dyte_participant_id row) as [u|] eqn:Hsupport.
    + left. rewrite (start_rejoin_eq _ _ _ _ _ Hrow Hsupport). reflexivity.
    + rewrite (start_first_join_eq _ _ _ _ Hrow Hsupport). cbv zeta.
      destruct (fetched _) as [e|participant]; [left; reflexivity|].
      destruct (subscript participant "id") as [e|participant_id];
        [left; reflexivity|].
      destruct (get_db_prep_value participant_id) as [e|support_id];
        [left; reflexivity|].
      right. exists row, support_id.
      destruct (subscript participant "token"); auto.
  - left. unfold LiveVideoRequestViewSet.start, bind.
    rewrite (get_object_or_404_missing _ _ Hrow). reflexivity.
Qed.

Lemma user_token_table (pk : Z) (w : World) :
  table (LiveVideoRequestViewSet.user_token provider pk w).2 = table w.
Proof.
  destruct (table w !! pk) as [row|] eqn:Hrow.
  - rewrite (user_token_eq _ _ _ _ Hrow). reflexivity.
  - unfold LiveVideoRequestViewSet.user_token, bind.
    rewrite (get_object_or_404_missing _ _ Hrow). reflexivity.
Qed.






End Lifecycle.

(** * The scenario of the specification, step by step

    Alice asks for a session on the shoes; the support agent starts it
    twice; Alice fetches her token. *)

Section Witnesses.
#[local] Existing Instance Scenario.framework.


Lemma start_twice_witness :
  table Scenario.after_create !! 1 = Some Scenario.alice
  /\ status Scenario.alice = PENDING
  /\ support_user_dyte_participant_id Scenario.alice = None
  /\ LiveVideoRequestViewSet.start Scenario.provider 1 Scenario.after_create =
     (inr {| response_data := TokenData (JStr "token-iii"); response_status := 201 |},
      {| table := <[1 := joined Scenario.alice (Some (Scenario.uuid "id-iii"))]>
                    (table Scenario.after_create);
         sent := (sent Scenario.after_create
                  ++ [first_join_request Scenario.alice])%list |})
  /\ (LiveVideoRequestViewSet.start Scenario.provider 1
        {| table := <[1 := joined Scenario.alice (Some (Scenario.uuid "id-iii"))]>
                      (table Scenario.after_create);
           sent := (sent Scenario.after_create
                    ++ [first_join_request Scenario.alice])%list |}).1 =
     inr {| response_data := TokenData (JStr "token-iiii"); response_status := 200 |}.
Proof.
  assert (Hrow : table Scenario.after_create !! 1 = Some Scenario.alice)
    by (vm_compute; reflexivity).
  destruct (start_twice_keeps_the_support_participant Scenario.provider
              1 Scenario.after_create Scenario.alice
              (JObj [("id", JStr "id-iii"); ("token", JStr "token-iii")])
              (JStr "id-iii") (JStr "token-iii") (Scenario.uuid "id-iii")
              Hrow eq_refl eq_refl eq_refl eq_refl eq_refl eq_refl)
    as (Hfirst & _ & _ & Hsecond).
  split; [exact Hrow|]. split; [reflexivity|]. split; [reflexivity|].
  split; [exact Hfirst|].
  apply (Hsecond (JObj [("id", JStr "id-iiii"); ("token", JStr "token-iiii")]));
    reflexivity.
Defined.



Lemma user_token_witness :
  table Scenario.after_create !! 1 = Some Scenario.alice
  /\ (LiveVideoRequestViewSet.user_token Scenario.provider 1
        Scenario.after_create).1 =
     inr {| response_data := TokenData (JStr "token-iii");
            response_status := HTTP_200_OK |}
  /\ (LiveVideoRequestViewSet.user_token Scenario.provider 1
        (LiveVideoRequestViewSet.user_token Scenario.provider 1
           Scenario.after_create).2).1 =
     inr {| response_data := TokenData (JStr "token-iiii");
            response_status := HTTP_200_OK |}
  /\ table (LiveVideoRequestViewSet.user_token Scenario.provider 1
              (LiveVideoRequestViewSet.user_token Scenario.provider 1
                 Scenario.after_create).2).2 !! 1 = Some Scenario.alice.
Proof.
  assert (Hrow : table Scenario.after_create !! 1 = Some Scenario.alice)
    by (vm_compute; reflexivity).
  destruct (user_token_refreshes_and_keeps_the_row Scenario.provider 1
              Scenario.after_create Scenario.alice Hrow)
    as (_ & _ & _ & _ & _ & Hrow2 & Hfirst & Hsecond).
  split; [exact Hrow|]. split; [|split; [|exact Hrow2]].
  - apply (Hfirst (JObj [("id", JStr "id-iii"); ("token", JStr "token-iii")]));
      reflexivity.
  - apply (Hsecond (JObj [("id", JStr "id-iiii"); ("token", JStr "token-iiii")]));
      reflexivity.
Defined.

Lemma create_rejects_witness :
  LiveVideoRequestSerializer Scenario.bad_payload =
    inl [("user_email", Code "required");
         ("product", Nested [("title", Code "required")])]
  /\ LiveVideoRequestViewSet.create Scenario.provider Scenario.bad_payload initial =
     (inr {| response_data :=
               ErrorsData [("user_email", Code "required");
                           ("product", Nested [("title", Code "required")])];
             response_status := HTTP_400_BAD_REQUEST |}, initial).
Proof.
  split; [reflexivity|].
  exact (proj1 (create_rejects_invalid_payload_without_effect Scenario.provider
                  Scenario.bad_payload
                  [("user_email", Code "required");
                   ("product", Nested [("title", Code "required")])]
                  initial eq_refl)).
Defined.

Lemma start_status_code_witness :
  table Scenario.after_create !! 1 = Some Scenario.alice
  /\ (LiveVideoRequestViewSet.start Scenario.provider 1 Scenario.after_create).1 =
     inr {| response_data := TokenData (JStr "token-iii"); response_status := 201 |}.
Proof.
  assert (Hrow : table Scenario.after_create !! 1 = Some Scenario.alice)
    by (vm_compute; reflexivity).
  split; [exact Hrow|].
  exact (proj1 (start_status_code_tells_first_join_from_rejoin Scenario.provider
                  1 Scenario.after_create Scenario.alice Hrow)
           (JObj [("id", JStr "id-iii"); ("token", JStr "token-iii")])
           (JStr "id-iii") (JStr "token-iii") (Some (Scenario.uuid "id-iii"))
           eq_refl eq_refl eq_refl eq_refl eq_refl).
Defined.

Lemma first_join_witness :
  table Scenario.after_create !! 1 = Some Scenario.alice
  /\ support_user_dyte_participant_id Scenario.alice = None
  /\ sent (LiveVideoRequestViewSet.start Scenario.provider 1
             Scenario.after_create).2 =
     (sent Scenario.after_create ++ [first_join_request Scenario.alice])%list.
Proof.
  assert (Hrow : table Scenario.after_create !! 1 = Some Scenario.alice)
    by (vm_compute; reflexivity).
  split; [exact Hrow|]. split; [reflexivity|].
  exact (proj1 (first_join_sends_constant_participant Scenario.provider 1
                  Scenario.after_create Scenario.alice Hrow eq_refl)).
Defined.

Lemma adapter_witness :
  DyteAPIClient.create_meeting (Scenario.provider_with_status 503)
    "Live shopping for: Shoes" "ap-south-1" false initial =
  (inl (HTTPError {| status_code := 503;
                     content := JsonText (Scenario.envelope 0) |}),
   record_sent (meeting_request Scenario.validated_payload) initial)
  /\ DyteAPIClient.refresh_participant_token (Scenario.provider_with_status 200)
       (VUuid (Scenario.uuid "id-i")) (VUuid (Scenario.uuid "id-ii")) initial =
     (inr (JObj [("id", JStr "id-i"); ("token", JStr "token-i")]),
      record_sent (refresh_request Scenario.alice (Scenario.uuid "id-ii")) initial).
Proof.
  split.
  - destruct (adapter_raises_on_error_status_and_unwraps_data
                (Scenario.provider_with_status 503)
                "Live shopping for: Shoes" "ap-south-1" false
                (VUuid (Scenario.uuid "id-i")) (VUuid (Scenario.uuid "id-ii"))
                "Alice" "video_shoping" "alice@x.com") as (Hmeeting & _ & _).
    apply (Hmeeting initial _ eq_refl). cbn. lia.
  - destruct (adapter_raises_on_error_status_and_unwraps_data
                (Scenario.provider_with_status 200)
                "Live shopping for: Shoes" "ap-south-1" false
                (VUuid (Scenario.uuid "id-i")) (VUuid (Scenario.uuid "id-ii"))
                "Alice" "video_shoping" "alice@x.com") as (_ & _ & Hrefresh).
    apply (proj2 (Hrefresh initial _ eq_refl)) with (envelope := Scenario.envelope 0);
      [cbn; lia|reflexivity|reflexivity].
Defined.

(** C9, as stated, fails: a reply with status 300 is not a success, and
    [create_meeting] returns the [data] item of its body all the same. *)
Lemma status_300_is_not_raised :
  let response := {| status_code := 300;
                     content := JsonText (Scenario.envelope 0) |} in
  Scenario.provider_with_status 300 (sent initial)
    (meeting_request Scenario.validated_payload) = Answer response
  /\ ~ 200 <= status_code response < 300
  /\ (DyteAPIClient.create_meeting (Scenario.provider_with_status 300)
        "Live shopping for: Shoes" "ap-south-1" false initial).1 =
     inr (JObj [("id", JStr "id-i"); ("token", JStr "token-i")])
  /\ (DyteAPIClient.create_meeting (Scenario.provider_with_status 300)
        "Live shopping for: Shoes" "ap-south-1" false initial).1 <>
     inl (HTTPError response).
Proof.
  cbv zeta. split; [reflexivity|]. split; [cbn; lia|].
  split; [reflexivity|discriminate].
Defined.

(** The scenario of the specification: after Alice's request the queue
    of the support agent shows it; after the agent's start it is ACTIVE
    and off the queue; Alice's token and a second start leave the row
    as it is, and the second start refreshes the agent's participant. *)
Example queue_after_create :
  LiveVideoRequestViewSet.list Scenario.after_create =
  (inr {| response_data := ListData [(1, Scenario.alice)];
          response_status := HTTP_200_OK |}, Scenario.after_create).
Proof. vm_compute. reflexivity. Qed.

Example queue_after_start :
  (LiveVideoRequestViewSet.list
     (handle Scenario.provider (Start 1) Scenario.after_create).2).1 =
  inr {| response_data := ListData []; response_status := HTTP_200_OK |}.
Proof. vm_compute. reflexivity. Qed.

Example scenario_of_the_specification :
  let w1 := (handle Scenario.provider (Start 1) Scenario.after_create).2 in
  let w2 := (handle Scenario.provider (GetUserToken 1) w1).2 in
  let w3 := (handle Scenario.provider (Start 1) w2).2 in
  table w1 !! 1 = Some (joined Scenario.alice (Some (Scenario.uuid "id-iii")))
  /\ (handle Scenario.provider (GetUserToken 1) w1).1 =
     inr {| response_data := TokenData (JStr "token-iiii");
            response_status := HTTP_200_OK |}
  /\ (handle Scenario.provider (Start 1) w2).1 =
     inr {| response_data := TokenData (JStr "token-iiiii");
            response_status := HTTP_200_OK |}
  /\ table w3 = table w1
  /\ sent w3 =
     (sent Scenario.after_create
      ++ [first_join_request Scenario.alice;
          refresh_request Scenario.alice (Scenario.uuid "id-ii");
          refresh_request Scenario.alice (Scenario.uuid "id-iii")])%list.
Proof. vm_compute. repeat split; reflexivity. Qed.

End Witnesses.

(** * Further properties of the code *)

(** ** The adapter, beyond error statuses *)

Section ClientEdges.
Context `{Framework} (provider : Provider).

(** X1. A reply that is not an error status but whose body cannot be
    used makes [_fetch] raise after the request has gone out: no reply
    at all gives [ConnectionError], a body that is not JSON gives
    [JSONDecodeError], a JSON object without a [data] item gives
    [KeyError] on that key, and JSON that is not an object gives
    [TypeError]. *)
Theorem fetch_raises_on_unusable_reply (r : Request) (w : World) :
  let p := DyteAPIClient.prepare_request r in
  (provider (sent w) p = NoAnswer ->
   DyteAPIClient._fetch provider r w = (inl ConnectionError, record_sent p w))
  /\ (forall response : HttpResponse,
        provider (sent w) p = Answer response ->
        ~ 400 <= status_code response < 600 ->
        (forall s : string,
           content response = OtherText s ->
           DyteAPIClient._fetch provider r w =
           (inl JSONDecodeError, record_sent p w))
        /\ (forall items : list (string * json),
              content response = JsonText (JObj items) ->
              assoc "data" items = None ->
              DyteAPIClient._fetch provider r w =
              (inl (KeyError "data"), record_sent p w))
        /\ (forall envelope : json,
              content response = JsonText envelope ->
              (forall items, envelope <> JObj items) ->
              DyteAPIClient._fetch provider r w =
              (inl TypeError, record_sent p w))).
Proof.
  cbv zeta. split.
  - intros Hreply. rewrite fetch_eq, Hreply. reflexivity.
  - intros response Hreply Hcode. rewrite fetch_eq, Hreply. unfold fetched.
    rewrite (raise_for_status_quiet _ Hcode). unfold DyteAPIClient.response_json.
    split; [|split].
    + intros s ->. reflexivity.
    + intros items -> Hdata. cbn. rewrite Hdata. reflexivity.
    + intros envelope -> Hshape.
      destruct envelope; try reflexivity. exfalso. eapply Hshape. reflexivity.
Qed.


End ClientEdges.

(** ** [create], beyond the two outcomes of a good payload *)

Section CreateEdges.
Context `{Framework} (provider : Provider).


Lemma assoc_skip {A : Type} (k k' : string) (v : A)
    (before after : list (string * A)) :
  k <> k' -> assoc k (before ++ (k', v) :: after) = assoc k (before ++ after).
Proof.
  intros Hother. induction before as [|[k0 v0] before IH]; cbn.
  - destruct (String.eqb_spec k k') as [->|_]; [contradiction|reflexivity].
  - rewrite IH. reflexivity.
Qed.

Lemma get_db_prep_value_error (v : json) (e : Exception) :
  get_db_prep_value v = inl e -> e = ValidationError.
Proof.
  unfold get_db_prep_value.
  destruct v; try discriminate; destruct (to_python _); try discriminate;
    intros [= <-]; reflexivity.
Qed.

(** [create] on an accepted payload once both replies carry an
    identifier: all that is left is the insert. *)
Lemma create_with_identifiers_eq (data : json) (v : ValidatedData) (w : World)
    (dyte_meeting meeting_id participant participant_id : json) :
  LiveVideoRequestSerializer data = inr v ->
  fetched (provider (sent w) (meeting_request v)) = inr dyte_meeting ->
  subscript dyte_meeting "id" = inr meeting_id ->
  fetched (provider (sent w ++ [meeting_request v])%list
                    (customer_request v meeting_id)) = inr participant ->
  subscript participant "id" = inr participant_id ->
  exists raw : json,
    subscript data "product" = inr raw
    /\ LiveVideoRequestViewSet.create provider data w =
       match objects_create meeting_id (validated_user_name v)
               (validated_user_email v) PENDING participant_id raw
               (record_sent (customer_request v meeting_id)
                            (record_sent (meeting_request v) w)) with
       | (inl e, w3) => (inl e, w3)
       | (inr live_request, w3) =>
           (inr {| response_data := RecordData live_request.1 live_request.2;
                   response_status := HTTP_201_CREATED |}, w3)
       end.
Proof.
  intros Hser Hmeeting Hmid Hcustomer Hpid.
  destruct (valid_payload_has_product _ _ Hser) as [raw Hraw].
  exists raw. split; [exact Hraw|].
  rewrite (create_valid_eq _ _ _ _ Hser). cbv zeta. cbn [sent table record_sent].
  rewrite Hmeeting, Hmid, Hcustomer, Hpid, Hraw. reflexivity.
Qed.

(** X3. A provider error leaves no row behind but may leave a meeting:
    when [create_meeting] fails, [create] raises its error after that
    one request; when [create_meeting] has answered and
    [add_participant] fails, [create] raises the second error, the
    table is as it was, and both requests have gone out. *)
Theorem create_leaves_meeting_behind_when_participant_fails
    (data : json) (v : ValidatedData) (w : World) :
  LiveVideoRequestSerializer data = inr v ->
  (forall e : Exception,
     fetched (provider (sent w) (meeting_request v)) = inl e ->
     LiveVideoRequestViewSet.create provider data w =
     (inl e, {| table := table w;
                sent := (sent w ++ [meeting_request v])%list |}))
  /\ (forall (dyte_meeting meeting_id : json) (e : Exception),
        fetched (provider (sent w) (meeting_request v)) = inr dyte_meeting ->
        subscript dyte_meeting "id" = inr meeting_id ->
        fetched (provider (sent w ++ [meeting_request v])%list
                          (customer_request v meeting_id)) = inl e ->
        LiveVideoRequestViewSet.create provider data w =
        (inl e, {| table := table w;
                   sent := (sent w ++ [meeting_request v;
                                       customer_request v meeting_id])%list |})).
Proof.
  intros Hser. split.
  - intros e Hmeeting. rewrite (create_valid_eq _ _ _ _ Hser). cbv zeta.
    rewrite Hmeeting. reflexivity.
  - intros dyte_meeting meeting_id e Hmeeting Hmid Hcustomer.
    rewrite (create_valid_eq _ _ _ _ Hser). cbv zeta. cbn [sent table record_sent].
    rewrite Hmeeting, Hmid, Hcustomer. unfold record_sent. cbn [sent table].
    rewrite <- app_assoc. reflexivity.
Qed.

(** X4. The two identifiers must be new. When both replies carry an
    identifier and a stored row already has that meeting or that
    customer participant, [create] raises [IntegrityError]; whenever the
    two identifiers do not both convert to identifiers no row has,
    [create] raises [ValidationError] or [IntegrityError]. In both
    cases the table is as it was and both requests have gone out. *)
Theorem create_refuses_identifiers_in_use
    (data : json) (v : ValidatedData) (w : World)
    (dyte_meeting meeting_id participant participant_id : json) :
  LiveVideoRequestSerializer data = inr v ->
  fetched (provider (sent w) (meeting_request v)) = inr dyte_meeting ->
  subscript dyte_meeting "id" = inr meeting_id ->
  fetched (provider (sent w ++ [meeting_request v])%list
                    (customer_request v meeting_id)) = inr participant ->
  subscript participant "id" = inr participant_id ->
  let w2 := {| table := table w;
               sent := (sent w ++ [meeting_request v;
                                   customer_request v meeting_id])%list |} in
  (forall up um : UUID,
     get_db_prep_value participant_id = inr (Some up) ->
     get_db_prep_value meeting_id = inr (Some um) ->
     ~ unique_ok up um (table w) ->
     LiveVideoRequestViewSet.create provider data w = (inl IntegrityError, w2))
  /\ (~ (exists up um : UUID,
           get_db_prep_value participant_id = inr (Some up)
           /\ get_db_prep_value meeting_id = inr (Some um)
           /\ unique_ok up um (table w)) ->
      exists e : Exception,
        (e = ValidationError \/ e = IntegrityError)
        /\ LiveVideoRequestViewSet.create provider data w = (inl e, w2)).
Proof.
  intros Hser Hmeeting Hmid Hcustomer Hpid w2.
  destruct (create_with_identifiers_eq _ _ _ _ _ _ _ Hser Hmeeting Hmid
              Hcustomer Hpid) as (raw & _ & ->).
  assert (Hw2 : record_sent (customer_request v meeting_id)
                            (record_sent (meeting_request v) w) = w2).
  { unfold record_sent, w2. cbn [sent table]. rewrite <- app_assoc. reflexivity. }
  rewrite Hw2. unfold objects_create, bind, lift, raise. split.
  - intros up um -> -> Hclash. cbn [table w2].
    destruct (decide (unique_ok up um (table w))); [contradiction|reflexivity].
  - intros Hnone.
    destruct (get_db_prep_value participant_id) as [e|[up|]] eqn:Hup.
    + exists e. split; [left; exact (get_db_prep_value_error _ _ Hup)|reflexivity].
    + destruct (get_db_prep_value meeting_id) as [e|[um|]] eqn:Hum.
      * exists e. split; [left; exact (get_db_prep_value_error _ _ Hum)|reflexivity].
      * cbn [table w2].
        destruct (decide (unique_ok up um (table w))) as [Hunique|Hclash].
        -- exfalso. apply Hnone. eauto.
        -- exists IntegrityError. split; [right; reflexivity|reflexivity].
      * exists IntegrityError. split; [right; reflexivity|reflexivity].
    + destruct (get_db_prep_value meeting_id) as [e|[um|]] eqn:Hum.
      * exists e. split; [left; exact (get_db_prep_value_error _ _ Hum)|reflexivity].
      * exists IntegrityError. split; [right; reflexivity|reflexivity].
      * exists IntegrityError. split; [right; reflexivity|reflexivity].
Qed.

(** X5. [create] never touches a row that is already stored, whatever
    the payload and whatever the provider replies. *)
Theorem create_keeps_existing_rows
    (data : json) (w : World) (pk : Z) (row : LiveVideoRequest) :
  table w !! pk = Some row ->
  table (LiveVideoRequestViewSet.create provider data w).2 !! pk = Some row.
Proof.
  intros Hrow.
  destruct (create_table_change provider data w)
    as [->|(v & dm & mid & p & pid & pk' & new & Hnew)]; [exact Hrow|].
  destruct Hnew as (_ & _ & _ & _ & _ & _ & _ & _ & Hfree & -> & _).
  rewrite lookup_insert_ne; [exact Hrow|congruence].
Qed.

(** X6. A key of the payload other than [user_email], [user_name],
    [feedback] and [product] has no effect on [create], wherever it
    stands in the object: a client that sends [status] or one of the
    identifiers gets the same answer and the same world as without it. *)
Theorem create_ignores_other_keys
    (k : string) (v : json) (before after : list (string * json)) (w : World) :
  k <> "user_email" -> k <> "user_name" -> k <> "feedback" -> k <> "product" ->
  LiveVideoRequestSerializer (JObj (before ++ (k, v) :: after)) =
    LiveVideoRequestSerializer (JObj (before ++ after))
  /\ LiveVideoRequestViewSet.create provider (JObj (before ++ (k, v) :: after)) w =
     LiveVideoRequestViewSet.create provider (JObj (before ++ after)) w.
Proof.
  intros Hemail Hname Hfeedback Hproduct.
  assert (Hser : LiveVideoRequestSerializer (JObj (before ++ (k, v) :: after)) =
                 LiveVideoRequestSerializer (JObj (before ++ after))).
  { unfold LiveVideoRequestSerializer.
    rewrite !assoc_skip by congruence. reflexivity. }
  split; [exact Hser|].
  unfold LiveVideoRequestViewSet.create. rewrite Hser.
  unfold subscript. rewrite assoc_skip by congruence. reflexivity.
Qed.



End CreateEdges.

(** ** [start], beyond the two calls of a good provider *)

Section StartEdges.
Context `{Framework} (provider : Provider).


(** X9. [start] saves the row before it reads the token. When the
    reply to [add_participant] carries an identifier and no token,
    [start] raises on the missing key, yet the row is already ACTIVE
    with the new support participant; the next [start] therefore only
    refreshes that participant's token. *)
Theorem start_saves_before_it_reads_the_token
    (pk : Z) (w : World) (row : LiveVideoRequest)
    (participant participant_id : json) (u : UUID) (e : Exception) :
  table w !! pk = Some row ->
  support_user_dyte_participant_id row = None ->
  fetched (provider (sent w) (first_join_request row)) = inr participant ->
  subscript participant "id" = inr participant_id ->
  get_db_prep_value participant_id = inr (Some u) ->
  subscript participant "token" = inl e ->
  let w1 := {| table := <[pk := joined row (Some u)]> (table w);
               sent := (sent w ++ [first_join_request row])%list |} in
  LiveVideoRequestViewSet.start provider pk w = (inl e, w1)
  /\ (LiveVideoRequestViewSet.start provider pk w1).2 =
     record_sent (refresh_request row u) w1.
Proof.
  intros Hrow Hsupport Hreply Hid Hprep Htoken w1. split.
  - rewrite (start_first_join_eq _ _ _ _ Hrow Hsupport). cbv zeta.
    rewrite Hreply, Hid, Hprep, Htoken. reflexivity.
  - assert (Hrow1 : table w1 !! pk = Some (joined row (Some u)))
      by (subst w1; cbn [table]; apply lookup_insert_eq).
    rewrite (start_rejoin_eq provider pk w1 _ u Hrow1); reflexivity.
Qed.

(** X10. [start] changes at most two columns of one row: every other
    key of the table holds what it held, and the row of [pk] keeps its
    requester, its meeting, its customer participant, its product, its
    feedback and its support user. *)
Theorem start_changes_two_columns_of_one_row (pk : Z) (w : World) :
  (forall pk' : Z,
     pk' <> pk ->
     table (LiveVideoRequestViewSet.start provider pk w).2 !! pk' = table w !! pk')
  /\ (forall row : LiveVideoRequest,
        table w !! pk = Some row ->
        exists row' : LiveVideoRequest,
          table (LiveVideoRequestViewSet.start provider pk w).2 !! pk = Some row'
          /\ user_email row' = user_email row
          /\ user_name row' = user_name row
          /\ user_dyte_participant_id row' = user_dyte_participant_id row
          /\ dyte_meeting_id row' = dyte_meeting_id row
          /\ support_user row' = support_user row
          /\ feedback row' = feedback row
          /\ product row' = product row).
Proof.
  destruct (start_table_cases provider pk w)
    as [->|(row0 & support_id & Hrow0 & _ & ->)].
  - split; [reflexivity|]. intros row Hrow. exists row. repeat split. exact Hrow.
  - split.
    + intros pk' Hother. rewrite lookup_insert_ne by congruence. reflexivity.
    + intros row Hrow. rewrite Hrow in Hrow0. injection Hrow0 as <-.
      exists (joined row support_id). rewrite lookup_insert_eq. repeat split.
Qed.


(** X12. [start] never looks at the status, nor at any column but the
    meeting and the support participant: on two rows that agree on
    these two, in worlds with the same requests sent, it gives the same
    answer and sends the same request. And whenever it answers on a row
    without support participant, that row is ACTIVE afterwards whatever
    its status was, DONE included. *)
Theorem start_looks_only_at_meeting_and_support_participant
    (pk1 pk2 : Z) (w1 w2 : World) (row1 row2 : LiveVideoRequest) :
  table w1 !! pk1 = Some row1 ->
  table w2 !! pk2 = Some row2 ->
  sent w1 = sent w2 ->
  dyte_meeting_id row1 = dyte_meeting_id row2 ->
  support_user_dyte_participant_id row1 = support_user_dyte_participant_id row2 ->
  (LiveVideoRequestViewSet.start provider pk1 w1).1 =
    (LiveVideoRequestViewSet.start provider pk2 w2).1
  /\ sent (LiveVideoRequestViewSet.start provider pk1 w1).2 =
     sent (LiveVideoRequestViewSet.start provider pk2 w2).2
  /\ (forall response : Response,
        support_user_dyte_participant_id row1 = None ->
        (LiveVideoRequestViewSet.start provider pk1 w1).1 = inr response ->
        exists row' : LiveVideoRequest,
          table (LiveVideoRequestViewSet.start provider pk1 w1).2 !! pk1 = Some row'
          /\ status row' = ACTIVE).
Proof.
  intros Hrow1 Hrow2 Hsent Hmeeting Hsupport.
  assert (Hfirst : first_join_request row1 = first_join_request row2)
    by (unfold first_join_request; rewrite Hmeeting; reflexivity).
  destruct (support_user_dyte_participant_id row1) as [u|] eqn:Hsupport1;
    symmetry in Hsupport.
  - assert (Hrefresh : refresh_request row1 u = refresh_request row2 u)
      by (unfold refresh_request; rewrite Hmeeting; reflexivity).
    rewrite (start_rejoin_eq _ _ _ _ _ Hrow1 Hsupport1),
            (start_rejoin_eq _ _ _ _ _ Hrow2 Hsupport).
    cbn [fst snd]. rewrite Hsent, Hrefresh. unfold record_sent. cbn [sent].
    rewrite Hsent. repeat split. discriminate.
  - rewrite (start_first_join_eq _ _ _ _ Hrow1 Hsupport1),
            (start_first_join_eq _ _ _ _ Hrow2 Hsupport).
    cbv zeta. rewrite Hsent, Hfirst.
    destruct (fetched _) as [e|participant];
      [cbn; rewrite Hsent; repeat split; discriminate|].
    destruct (subscript participant "id") as [e|participant_id];
      [cbn; rewrite Hsent; repeat split; discriminate|].
    destruct (get_db_prep_value participant_id) as [e|support_id];
      [cbn; rewrite Hsent; repeat split; discriminate|].
    destruct (subscript participant "token");
      cbn; rewrite Hsent; (split; [reflexivity|]); (split; [reflexivity|]);
      [discriminate|].
    intros response _ _. exists (joined row1 support_id).
    rewrite lookup_insert_eq. split; reflexivity.
Qed.

End StartEdges.

(** ** What every reachable table looks like *)

Section Invariants.
Context `{Framework} (provider : Provider).

(** The row [create] adds, if it adds one. *)
Lemma create_new_row_shape (data : json) (w : World) :
  table (LiveVideoRequestViewSet.create provider data w).2 = table w
  \/ exists (pk : Z) (row : LiveVideoRequest),
       table w !! pk = None
       /\ unique_ok (user_dyte_participant_id row) (dyte_meeting_id row) (table w)
       /\ support_user row = None
       /\ support_user_dyte_participant_id row = None
       /\ status row = PENDING
       /\ feedback row = EmptyString
       /\ table (LiveVideoRequestViewSet.create provider data w).2 =
          <[pk := row]> (table w).
Proof.
  destruct (LiveVideoRequestSerializer data) as [errors|v] eqn:Hser.
  { left. unfold LiveVideoRequestViewSet.create. rewrite Hser. reflexivity. }
  rewrite (create_valid_eq _ _ _ _ Hser). cbv zeta.
  destruct (fetched _) as [e|dyte_meeting]; [left; reflexivity|].
  destruct (subscript dyte_meeting "id") as [e|meeting_id]; [left; reflexivity|].
  destruct (fetched _) as [e|participant]; [left; reflexivity|].
  destruct (subscript participant "id") as [e|participant_id]; [left; reflexivity|].
  destruct (subscript data "product") as [e|raw]; [left; reflexivity|].
  destruct (objects_create_cases meeting_id (validated_user_name v)
              (validated_user_email v) participant_id raw
              (record_sent (customer_request v meeting_id)
                           (record_sent (meeting_request v) w)))
    as [[e Hcreate]|(up & um & row & _ & _ & Hunique & Hrow & Hcreate)];
    rewrite Hcreate; [left; reflexivity|].
  right. exists (next_pk (table w)), row. cbn [table sent record_sent snd] in *.
  rewrite Hrow. cbn [user_dyte_participant_id dyte_meeting_id support_user
                     support_user_dyte_participant_id status feedback].
  split; [apply next_pk_fresh|]. split; [exact Hunique|].
  split; [reflexivity|]. split; [reflexivity|]. split; [reflexivity|].
  split; reflexivity.
Qed.

(** One request does nothing to the table, adds a row as [create] makes
    them, or writes a row that had no support participant ACTIVE. *)
Lemma handle_step_cases (op : Operation) (w : World) :
  table (handle provider op w).2 = table w
  \/ (exists (pk : Z) (row : LiveVideoRequest),
        table w !! pk = None
        /\ unique_ok (user_dyte_participant_id row) (dyte_meeting_id row) (table w)
        /\ support_user row = None
        /\ support_user_dyte_participant_id row = None
        /\ status row = PENDING
        /\ feedback row = EmptyString
        /\ table (handle provider op w).2 = <[pk := row]> (table w))
  \/ (exists (pk : Z) (row : LiveVideoRequest) (support_id : option UUID),
        table w !! pk = Some row
        /\ support_user_dyte_participant_id row = None
        /\ table (handle provider op w).2 = <[pk := joined row support_id]> (table w)).
Proof.
  destruct op as [data| |pk|pk]; cbn [handle].
  - destruct (create_new_row_shape data w) as [Hsame|Hnew]; auto.
  - left. reflexivity.
  - destruct (start_table_cases provider pk w) as [Hsame|(row & support_id & Hjoin)];
      [left; exact Hsame|].
    right. right. exists pk, row, support_id. exact Hjoin.
  - left. apply user_token_table.
Qed.

(** X13. In every reachable world a row that is PENDING has no support
    participant, a row with a support participant is ACTIVE, and no row
    has a support user or feedback: the four handlers never write these
    two columns. *)
Theorem reachable_rows_are_as_the_handlers_write_them
    (w : World) (pk : Z) (row : LiveVideoRequest) :
  reachable provider w ->
  table w !! pk = Some row ->
  (status row = PENDING -> support_user_dyte_participant_id row = None)
  /\ (support_user_dyte_participant_id row <> None -> status row = ACTIVE)
  /\ support_user row = None
  /\ feedback row = EmptyString.
Proof.
  intros Hreach. revert pk row.
  induction Hreach as [|op w Hreach IH]; intros pk row Hrow.
  - cbn in Hrow. rewrite lookup_empty in Hrow. discriminate.
  - destruct (handle_step_cases op w)
      as [Hsame|[(pk' & new & _ & _ & Huser & Hnone & Hpending & Hfeedback & Htable)
                |(pk' & old & support_id & Hold & _ & Htable)]];
      rewrite ?Hsame, ?Htable in Hrow.
    + exact (IH pk row Hrow).
    + apply lookup_insert_Some in Hrow as [[-> <-]|[_ Hrow]]; [|exact (IH pk row Hrow)].
      rewrite Hnone, Hpending. repeat split; try assumption. intros []. reflexivity.
    + apply lookup_insert_Some in Hrow as [[-> <-]|[_ Hrow]]; [|exact (IH pk row Hrow)].
      destruct (IH _ _ Hold) as (_ & _ & Huser & Hfeedback).
      cbn. repeat split; try assumption. discriminate.
Qed.

(** X14. In every reachable world no two rows share a meeting or a
    customer participant: [create] is the only handler that writes
    these columns, and the UNIQUE constraints turn a repeated identifier
    away. *)
Theorem reachable_rows_have_their_own_meeting_and_participant
    (w : World) (pk1 pk2 : Z) (row1 row2 : LiveVideoRequest) :
  reachable provider w ->
  table w !! pk1 = Some row1 ->
  table w !! pk2 = Some row2 ->
  dyte_meeting_id row1 = dyte_meeting_id row2
  \/ user_dyte_participant_id row1 = user_dyte_participant_id row2 ->
  pk1 = pk2.
Proof.
  intros Hreach. revert pk1 pk2 row1 row2.
  induction Hreach as [|op w Hreach IH]; intros pk1 pk2 row1 row2 Hrow1 Hrow2 Hshare.
  - cbn in Hrow1. rewrite lookup_empty in Hrow1. discriminate.
  - destruct (handle_step_cases op w)
      as [Hsame|[(pk' & new & _ & Hunique & _ & _ & _ & _ & Htable)
                |(pk' & old & support_id & Hold & _ & Htable)]];
      rewrite ?Hsame, ?Htable in Hrow1, Hrow2.
    + exact (IH _ _ _ _ Hrow1 Hrow2 Hshare).
    + apply lookup_insert_Some in Hrow1 as [[<- <-]|[_ Hrow1]];
        apply lookup_insert_Some in Hrow2 as [[<- <-]|[_ Hrow2]].
      * reflexivity.
      * exfalso. destruct (Hunique _ _ Hrow2) as [Hp Hm].
        destruct Hshare as [Hshare|Hshare]; congruence.
      * exfalso. destruct (Hunique _ _ Hrow1) as [Hp Hm].
        destruct Hshare as [Hshare|Hshare]; congruence.
      * exact (IH _ _ _ _ Hrow1 Hrow2 Hshare).
    + assert (Hback : forall pk row,
                <[pk' := joined old support_id]> (table w) !! pk = Some row ->
                exists row0, table w !! pk = Some row0
                             /\ dyte_meeting_id row0 = dyte_meeting_id row
                             /\ user_dyte_participant_id row0 =
                                user_dyte_participant_id row).
      { intros pk row Hrow.
        apply lookup_insert_Some in Hrow as [[<- <-]|[_ Hrow]]; eauto. }
      destruct (Hback _ _ Hrow1) as (old1 & Hold1 & Hm1 & Hp1).
      destruct (Hback _ _ Hrow2) as (old2 & Hold2 & Hm2 & Hp2).
      apply (IH _ _ _ _ Hold1 Hold2). rewrite Hm1, Hm2, Hp1, Hp2. exact Hshare.
Qed.


End Invariants.

(** ** The frontend *)

Section Frontend.
Context `{Framework} (provider : Provider).

(** X16. The body the product button posts never gets a request
    created: whatever the product, it has neither [user_email] nor
    [user_name], so the serializer lists both as required and [create]
    answers 400 without a call to the provider and without a row. *)
Theorem product_button_body_is_rejected
    (id : Z) (title : string) (imageUrl : option string) (w : World) :
  exists errors : Errors,
    LiveVideoRequestSerializer
      (VideoShoppingButton.startVideoShopping_data id title imageUrl) = inl errors
    /\ ("user_email", Code "required") ∈ errors
    /\ ("user_name", Code "required") ∈ errors
    /\ LiveVideoRequestViewSet.create provider
         (VideoShoppingButton.startVideoShopping_data id title imageUrl) w =
       (inr {| response_data := ErrorsData errors;
               response_status := HTTP_400_BAD_REQUEST |}, w).
Proof.
  unfold LiveVideoRequestViewSet.create, LiveVideoRequestSerializer,
    VideoShoppingButton.startVideoShopping_data.
  cbn [assoc String.eqb Ascii.eqb Bool.eqb required_field optional_field error_of].
  destruct (ProductSerializer _) as [e|p]; cbn [error_of app];
    eexists; (split; [reflexivity|]);
    (split; [apply elem_of_cons; left; reflexivity|]);
    (split; [apply elem_of_cons; right; apply elem_of_cons; left; reflexivity|]);
    reflexivity.
Qed.

End Frontend.

Section Reducers.

Lemma meeting_reducer_known (state : Meeting.State) (action : Meeting.Action) :
  known_meeting_action action ->
  exists state' : Meeting.State,
    Meeting.reducer state action = inr state'
    /\ (Meeting.show_meeting state' = true <->
        Meeting.show_meeting state = true
        \/ Meeting.type action = "set_show_meeting")
    /\ Meeting.dyte_auth_token state' =
       if String.eqb (Meeting.type action) "set_dyte_auth_token"
       then Meeting.action_dyte_auth_token action
       else Meeting.dyte_auth_token state.
Proof.
  intros Hknown. unfold Meeting.reducer.
  destruct (String.eqb_spec (Meeting.type action) "set_dyte_auth_token")
    as [Htoken|Hnot].
  - eexists. split; [reflexivity|]. cbn. split; [|reflexivity].
    rewrite Htoken. split; [auto|]. intros [Hshow|Hother]; [exact Hshow|discriminate].
  - destruct Hknown as [Htoken|Hshow]; [contradiction|].
    rewrite Hshow. cbn. eexists. split; [reflexivity|]. cbn. tauto.
Qed.

Lemma meeting_reducer_unknown (state : Meeting.State) (action : Meeting.Action) :
  ~ known_meeting_action action ->
  Meeting.reducer state action =
  inl ("Invalid action type: " ++ Meeting.type action).
Proof.
  intros Hunknown. unfold Meeting.reducer, known_meeting_action in *.
  destruct (String.eqb_spec (Meeting.type action) "set_dyte_auth_token");
    [tauto|].
  destruct (String.eqb_spec (Meeting.type action) "set_show_meeting");
    [tauto|reflexivity].
Qed.

(** X17. Over any run of dispatches that does not throw, the meeting
    state is shown at the end exactly when it was shown at the start or
    a [set_show_meeting] was among the actions, so nothing hides it
    again; and its token is the token of the last [set_dyte_auth_token],
    or the one at the start when there was none. *)
Theorem meeting_state_after_dispatches
    (actions : list Meeting.Action) (state state' : Meeting.State) :
  dispatches Meeting.reducer state actions = inr state' ->
  (Meeting.show_meeting state' = true <->
   Meeting.show_meeting state = true
   \/ exists action, action ∈ actions /\ Meeting.type action = "set_show_meeting")
  /\ Meeting.dyte_auth_token state' =
     match Meeting.last_token actions with
     | Some token => token
     | None => Meeting.dyte_auth_token state
     end.
Proof.
  revert state. induction actions as [|action rest IH]; intros state Hrun.
  - cbn in Hrun. injection Hrun as <-. cbn. split; [|reflexivity].
    split; [auto|]. intros [Hshow|(action & Hin & _)]; [exact Hshow|].
    apply elem_of_nil in Hin. contradiction.
  - cbn [dispatches] in Hrun.
    destruct (Meeting.reducer state action) as [message|next] eqn:Hstep;
      [discriminate|].
    assert (Hknown : known_meeting_action action).
    { unfold known_meeting_action.
      destruct (String.eqb_spec (Meeting.type action) "set_dyte_auth_token");
        [auto|].
      destruct (String.eqb_spec (Meeting.type action) "set_show_meeting");
        [auto|].
      exfalso. rewrite meeting_reducer_unknown in Hstep; [discriminate|].
      unfold known_meeting_action. tauto. }
    destruct (meeting_reducer_known state action Hknown)
      as (next' & Hnext & Hshow & Htoken).
    rewrite Hstep in Hnext. injection Hnext as <-.
    destruct (IH next Hrun) as [IHshow IHtoken]. split.
    + rewrite IHshow, Hshow. split.
      * intros [[Hstart|Hhere]|(a & Hin & Ha)].
        -- left. exact Hstart.
        -- right. exists action. split; [apply elem_of_cons; auto|exact Hhere].
        -- right. exists a. split; [apply elem_of_cons; auto|exact Ha].
      * intros [Hstart|(a & Hin & Ha)]; [auto|].
        apply elem_of_cons in Hin as [->|Hin]; [auto|].
        right. exists a. auto.
    + rewrite IHtoken. cbn [Meeting.last_token].
      destruct (Meeting.last_token rest); [reflexivity|].
      rewrite Htoken. destruct (String.eqb _ _); reflexivity.
Qed.

(** X18. A run of dispatches on the meeting state throws exactly when
    some action has a type other than the two the reducer knows, and
    the message then names the first such type; the actions after it
    are not looked at. *)
Theorem meeting_dispatches_throw_on_first_unknown_type
    (actions : list Meeting.Action) (state : Meeting.State) (message : string) :
  dispatches Meeting.reducer state actions = inl message <->
  exists (before after : list Meeting.Action) (action : Meeting.Action),
    actions = (before ++ action :: after)%list
    /\ Forall known_meeting_action before
    /\ ~ known_meeting_action action
    /\ message = "Invalid action type: " ++ Meeting.type action.
Proof.
  revert state. induction actions as [|action rest IH]; intros state.
  - cbn. split; [discriminate|].
    intros (before & after & a & Hnil & _). destruct before; discriminate.
  - cbn [dispatches]. split.
    + destruct (Meeting.reducer state action) as [m|next] eqn:Hstep.
      * intros [= ->]. exists [], rest, action.
        assert (Hunknown : ~ known_meeting_action action).
        { intros Hknown.
          destruct (meeting_reducer_known state action Hknown) as (s & Hs & _).
          congruence. }
        rewrite (meeting_reducer_unknown _ _ Hunknown) in Hstep.
        injection Hstep as <-. split; [reflexivity|].
        split; [constructor|]. split; [exact Hunknown|reflexivity].
      * intros Hrest. apply IH in Hrest
          as (before & after & a & -> & Hbefore & Hunknown & ->).
        exists (action :: before), after, a. split; [reflexivity|].
        split; [|split; [exact Hunknown|reflexivity]].
        constructor; [|exact Hbefore].
        destruct (String.eqb_spec (Meeting.type action) "set_dyte_auth_token");
          [left; assumption|].
        destruct (String.eqb_spec (Meeting.type action) "set_show_meeting");
          [right; assumption|].
        exfalso. rewrite meeting_reducer_unknown in Hstep; [discriminate|].
        unfold known_meeting_action. tauto.
    + intros (before & after & a & Hsplit & Hbefore & Hunknown & ->).
      destruct before as [|b before]; cbn in Hsplit; injection Hsplit as -> ->.
      * rewrite (meeting_reducer_unknown _ _ Hunknown). reflexivity.
      * apply Forall_cons in Hbefore as [Hb Hbefore].
        destruct (meeting_reducer_known state b Hb) as (next & -> & _).
        apply IH. exists before, after, a. auto.
Qed.

(** X19. The reducer of the support page replaces the state: after a
    run of dispatches that does not throw, the requests shown are those
    of the last action, whatever was shown before, and the state at the
    start only when there was no action. *)
Theorem support_page_shows_the_last_list {R : Type}
    (actions : list (LiveRequestPage.Action R))
    (state state' : LiveRequestPage.State R) :
  dispatches LiveRequestPage.reducer state actions = inr state' ->
  state' = match last actions with
           | Some action =>
               {| LiveRequestPage.liveRequests :=
                    LiveRequestPage.action_liveRequests action |}
           | None => state
           end
  /\ Forall (fun action => LiveRequestPage.type action = "set_liveRequests") actions.
Proof.
  revert state. induction actions as [|action rest IH]; intros state Hrun.
  - cbn in Hrun. injection Hrun as <-. split; [reflexivity|constructor].
  - cbn [dispatches] in Hrun. unfold LiveRequestPage.reducer in Hrun at 1.
    destruct (String.eqb_spec (LiveRequestPage.type action) "set_liveRequests")
      as [Htype|Hother]; [|discriminate].
    destruct (IH _ Hrun) as [Hlast Hrest]. split; [|constructor; assumption].
    rewrite Hlast. destruct rest as [|next rest]; [reflexivity|].
    rewrite last_cons_cons.
    destruct (last (next :: rest)) eqn:Hnone; [reflexivity|].
    apply last_None in Hnone. discriminate.
Qed.

End Reducers.

(** ** Required keys of a payload *)

Section RequiredKeys.
Context `{Framework}.

(** An error of one of the four fields is in the serializer's errors. *)
Lemma serializer_lists_field_error (items : list (string * json))
    (name : string) (e : ErrorDetail) :
  (name = "user_email"
   /\ required_field (field EmailField) (assoc "user_email" items) = inl e)
  \/ (name = "user_name"
      /\ required_field (field (CharField (Some 128%nat)))
                        (assoc "user_name" items) = inl e)
  \/ (name = "feedback"
      /\ optional_field (field (CharField None)) (assoc "feedback" items) = inl e)
  \/ (name = "product"
      /\ required_field ProductSerializer (assoc "product" items) = inl e) ->
  exists errors : Errors,
    LiveVideoRequestSerializer (JObj items) = inl errors /\ (name, e) ∈ errors.
Proof.
  unfold LiveVideoRequestSerializer.
  set (r1 := required_field (field EmailField) _).
  set (r2 := required_field (field (CharField (Some 128%nat))) _).
  set (r3 := optional_field (field (CharField None)) _).
  set (r4 := required_field ProductSerializer _).
  intros Hcase.
  destruct r1, r2, r3, r4; cbn;
    destruct Hcase as [[-> He] | [[-> He] | [[-> He] | [-> He]]]];
    try discriminate; injection He as ->;
    (eexists; split; [reflexivity|]);
    repeat (rewrite elem_of_cons); auto 10.
Qed.

(** X20. An object payload that lacks [user_email], [user_name] or
    [product] is rejected with the code [required] under that key, and
    one that has [null] there, or under [feedback], is rejected with
    the code [null] under it, whatever the other keys hold. *)
Theorem payload_without_a_required_key_is_rejected
    (items : list (string * json)) (name : string) :
  (name = "user_email" \/ name = "user_name" \/ name = "product" ->
   assoc name items = None ->
   exists errors : Errors,
     LiveVideoRequestSerializer (JObj items) = inl errors
     /\ (name, Code "required") ∈ errors)
  /\ (name = "user_email" \/ name = "user_name" \/ name = "feedback"
      \/ name = "product" ->
      assoc name items = Some JNull ->
      exists errors : Errors,
        LiveVideoRequestSerializer (JObj items) = inl errors
        /\ (name, Code "null") ∈ errors).
Proof.
  split.
  - intros Hname Hmissing. apply serializer_lists_field_error.
    destruct Hname as [-> | [-> | ->]]; rewrite Hmissing; cbn; auto 10.
  - intros Hname Hnull. apply serializer_lists_field_error.
    destruct Hname as [-> | [-> | [-> | ->]]]; rewrite Hnull; cbn; auto 10.
Qed.

End RequiredKeys.

(** * The further properties on concrete replies and tables *)

Section Runs.
#[local] Existing Instance Scenario.framework.

Lemma fetch_raises_witness :
  DyteAPIClient._fetch (Cases.always NoAnswer)
    (DyteAPIClient.create_meeting_request "Shoes" "ap-south-1" false) initial =
  (inl ConnectionError,
   record_sent (DyteAPIClient.prepare_request
                  (DyteAPIClient.create_meeting_request "Shoes" "ap-south-1" false))
               initial)
  /\ DyteAPIClient._fetch
       (Cases.always (Answer {| status_code := 200;
                                content := OtherText "<html>" |}))
       (DyteAPIClient.create_meeting_request "Shoes" "ap-south-1" false) initial =
     (inl JSONDecodeError,
      record_sent (DyteAPIClient.prepare_request
                     (DyteAPIClient.create_meeting_request "Shoes" "ap-south-1"
                                                           false))
                  initial)
  /\ DyteAPIClient._fetch
       (Cases.always (Answer {| status_code := 200;
                                content := JsonText (JObj [("success", JBool true)]) |}))
       (DyteAPIClient.create_meeting_request "Shoes" "ap-south-1" false) initial =
     (inl (KeyError "data"),
      record_sent (DyteAPIClient.prepare_request
                     (DyteAPIClient.create_meeting_request "Shoes" "ap-south-1"
                                                           false))
                  initial)
  /\ DyteAPIClient._fetch
       (Cases.always (Answer {| status_code := 204; content := JsonText JNull |}))
       (DyteAPIClient.create_meeting_request "Shoes" "ap-south-1" false) initial =
     (inl TypeError,
      record_sent (DyteAPIClient.prepare_request
                     (DyteAPIClient.create_meeting_request "Shoes" "ap-south-1"
                                                           false))
                  initial).
Proof.
  split; [|split; [|split]].
  - exact (proj1 (fetch_raises_on_unusable_reply (Cases.always NoAnswer)
                    (DyteAPIClient.create_meeting_request "Shoes" "ap-south-1" false)
                    initial) eq_refl).
  - assert (Hcode : ~ 400 <= status_code {| status_code := 200; content := OtherText "<html>" |} < 600) by (cbn; lia).
    destruct (proj2 (fetch_raises_on_unusable_reply
                       (Cases.always (Answer {| status_code := 200; content := OtherText "<html>" |}))
                       (DyteAPIClient.create_meeting_request "Shoes" "ap-south-1"
                                                             false)
                       initial) {| status_code := 200; content := OtherText "<html>" |} eq_refl Hcode) as (Htext & Hkey & Htype).
    exact (Htext "<html>" eq_refl).
  - assert (Hcode : ~ 400 <= status_code {| status_code := 200;
                          content := JsonText (JObj [("success", JBool true)]) |} < 600) by (cbn; lia).
    destruct (proj2 (fetch_raises_on_unusable_reply
                       (Cases.always (Answer {| status_code := 200;
                          content := JsonText (JObj [("success", JBool true)]) |}))
                       (DyteAPIClient.create_meeting_request "Shoes" "ap-south-1"
                                                             false)
                       initial) {| status_code := 200;
                          content := JsonText (JObj [("success", JBool true)]) |} eq_refl Hcode) as (Htext & Hkey & Htype).
    exact (Hkey [("success", JBool true)] eq_refl eq_refl).
  - assert (Hcode : ~ 400 <= status_code {| status_code := 204; content := JsonText JNull |} < 600) by (cbn; lia).
    destruct (proj2 (fetch_raises_on_unusable_reply
                       (Cases.always (Answer {| status_code := 204; content := JsonText JNull |}))
                       (DyteAPIClient.create_meeting_request "Shoes" "ap-south-1"
                                                             false)
                       initial) {| status_code := 204; content := JsonText JNull |} eq_refl Hcode) as (Htext & Hkey & Htype).
    apply (Htype JNull eq_refl). discriminate.
Defined.

Lemma create_partial_failure_witness :
  LiveVideoRequestSerializer Scenario.payload = inr Scenario.validated_payload
  /\ LiveVideoRequestViewSet.create Cases.failing_after_first Scenario.payload
       initial =
     (inl (HTTPError {| status_code := 503;
                        content := JsonText (Scenario.envelope 0) |}),
      {| table := table initial;
         sent := (sent initial
                  ++ [meeting_request Scenario.validated_payload;
                      customer_request Scenario.validated_payload
                                       (JStr "id-i")])%list |}).
Proof.
  split; [reflexivity|].
  exact (proj2 (create_leaves_meeting_behind_when_participant_fails
                  Cases.failing_after_first Scenario.payload
                  Scenario.validated_payload initial eq_refl)
           (JObj [("id", JStr "id-i"); ("token", JStr "token-i")]) (JStr "id-i")
           _ eq_refl eq_refl eq_refl).
Defined.

Lemma create_refuses_witness :
  ~ unique_ok (Scenario.uuid "id-i") (Scenario.uuid "id-i")
              (table Scenario.after_create)
  /\ LiveVideoRequestViewSet.create (Scenario.provider_with_status 200)
       Scenario.payload Scenario.after_create =
     (inl IntegrityError,
      {| table := table Scenario.after_create;
         sent := (sent Scenario.after_create
                  ++ [meeting_request Scenario.validated_payload;
                      customer_request Scenario.validated_payload
                                       (JStr "id-i")])%list |}).
Proof.
  assert (Hclash : ~ unique_ok (Scenario.uuid "id-i") (Scenario.uuid "id-i")
                               (table Scenario.after_create)).
  { intros Hunique.
    assert (Hrow : table Scenario.after_create !! 1 = Some Scenario.alice)
      by (vm_compute; reflexivity).
    destruct (Hunique 1 Scenario.alice Hrow) as [_ Hmeeting].
    apply Hmeeting. reflexivity. }
  split; [exact Hclash|].
  exact (proj1 (create_refuses_identifiers_in_use
                  (Scenario.provider_with_status 200) Scenario.payload
                  Scenario.validated_payload Scenario.after_create
                  (JObj [("id", JStr "id-i"); ("token", JStr "token-i")])
                  (JStr "id-i")
                  (JObj [("id", JStr "id-i"); ("token", JStr "token-i")])
                  (JStr "id-i") eq_refl eq_refl eq_refl eq_refl eq_refl)
           (Scenario.uuid "id-i") (Scenario.uuid "id-i") eq_refl eq_refl Hclash).
Defined.

Lemma create_keeps_rows_witness :
  table Scenario.after_create !! 1 = Some Scenario.alice
  /\ table (LiveVideoRequestViewSet.create Scenario.provider Scenario.payload
              Scenario.after_create).2 !! 1 = Some Scenario.alice.
Proof.
  assert (Hrow : table Scenario.after_create !! 1 = Some Scenario.alice)
    by (vm_compute; reflexivity).
  split; [exact Hrow|].
  exact (create_keeps_existing_rows Scenario.provider Scenario.payload
           Scenario.after_create 1 Scenario.alice Hrow).
Defined.

Lemma create_ignores_status_witness :
  LiveVideoRequestViewSet.create Scenario.provider Cases.pushy_payload initial =
  LiveVideoRequestViewSet.create Scenario.provider Scenario.payload initial.
Proof.
  refine (proj2 (create_ignores_other_keys Scenario.provider "status"
                   (JStr "DONE") []
                   [("user_name", JStr "Alice"); ("user_email", JStr "alice@x.com");
                    ("product", Scenario.shoes)]
                   initial _ _ _ _)); discriminate.
Defined.


Lemma start_saves_first_witness :
  table Scenario.after_create !! 1 = Some Scenario.alice
  /\ LiveVideoRequestViewSet.start (Cases.always Cases.without_token) 1
       Scenario.after_create =
     (inl (KeyError "token"),
      {| table := <[1 := joined Scenario.alice (Some (Scenario.uuid "id-s"))]>
                    (table Scenario.after_create);
         sent := (sent Scenario.after_create
                  ++ [first_join_request Scenario.alice])%list |}).
Proof.
  assert (Hrow : table Scenario.after_create !! 1 = Some Scenario.alice)
    by (vm_compute; reflexivity).
  split; [exact Hrow|].
  exact (proj1 (start_saves_before_it_reads_the_token
                  (Cases.always Cases.without_token) 1 Scenario.after_create
                  Scenario.alice (JObj [("id", JStr "id-s")]) (JStr "id-s")
                  (Scenario.uuid "id-s") (KeyError "token")
                  Hrow eq_refl eq_refl eq_refl eq_refl eq_refl)).
Defined.

Lemma start_frame_witness :
  table Cases.two_requests !! 2 = Some Cases.bob
  /\ table (LiveVideoRequestViewSet.start Scenario.provider 1
              Cases.two_requests).2 !! 2 = Some Cases.bob.
Proof.
  assert (Hbob : table Cases.two_requests !! 2 = Some Cases.bob)
    by (vm_compute; reflexivity).
  split; [exact Hbob|].
  rewrite <- Hbob.
  apply (proj1 (start_changes_two_columns_of_one_row Scenario.provider 1
                  Cases.two_requests) 2).
  discriminate.
Defined.


Lemma start_ignores_status_witness :
  table Scenario.after_create !! 1 = Some Scenario.alice
  /\ table Cases.closed_world !! 5 = Some Cases.closed_alice
  /\ status Cases.closed_alice = DONE
  /\ (LiveVideoRequestViewSet.start Scenario.provider 1 Scenario.after_create).1 =
     (LiveVideoRequestViewSet.start Scenario.provider 5 Cases.closed_world).1
  /\ exists row' : LiveVideoRequest,
       table (LiveVideoRequestViewSet.start Scenario.provider 5
                Cases.closed_world).2 !! 5 = Some row'
       /\ status row' = ACTIVE.
Proof.
  assert (Halice : table Scenario.after_create !! 1 = Some Scenario.alice)
    by (vm_compute; reflexivity).
  assert (Hclosed : table Cases.closed_world !! 5 = Some Cases.closed_alice)
    by (vm_compute; reflexivity).
  split; [exact Halice|]. split; [exact Hclosed|]. split; [reflexivity|].
  split.
  - exact (proj1 (start_looks_only_at_meeting_and_support_participant
                    Scenario.provider 1 5 Scenario.after_create Cases.closed_world
                    Scenario.alice Cases.closed_alice
                    Halice Hclosed eq_refl eq_refl eq_refl)).
  - refine (proj2 (proj2 (start_looks_only_at_meeting_and_support_participant
                    Scenario.provider 5 5 Cases.closed_world Cases.closed_world
                    Cases.closed_alice Cases.closed_alice
                    Hclosed Hclosed eq_refl eq_refl eq_refl))
              {| response_data := TokenData (JStr "token-iii");
                 response_status := 201 |} eq_refl _).
    vm_compute. reflexivity.
Defined.

Lemma reachable_rows_witness :
  reachable Scenario.provider Cases.after_two_creates
  /\ table Cases.after_two_creates !! 2 =
     Some {| user_email := "alice@x.com";
             user_name := "Alice";
             user_dyte_participant_id := Scenario.uuid "id-iiii";
             dyte_meeting_id := Scenario.uuid "id-iii";
             support_user := None;
             support_user_dyte_participant_id := None;
             status := PENDING;
             feedback := EmptyString;
             product := Scenario.shoes |}
  /\ (forall row : LiveVideoRequest,
        table Cases.after_two_creates !! 2 = Some row ->
        (status row = PENDING -> support_user_dyte_participant_id row = None)
        /\ (support_user_dyte_participant_id row <> None -> status row = ACTIVE)
        /\ support_user row = None
        /\ feedback row = EmptyString).
Proof.
  assert (Hreach : reachable Scenario.provider Cases.after_two_creates)
    by exact (reachable_step Scenario.provider (Create Scenario.payload) _
                (reachable_step Scenario.provider (Create Scenario.payload) initial
                   (reachable_initial Scenario.provider))).
  split; [exact Hreach|]. split; [vm_compute; reflexivity|].
  intros row Hrow.
  exact (reachable_rows_are_as_the_handlers_write_them Scenario.provider
           Cases.after_two_creates 2 row Hreach Hrow).
Defined.

Lemma reachable_unique_witness :
  reachable Scenario.provider Cases.after_two_creates
  /\ forall (pk : Z) (row : LiveVideoRequest),
       table Cases.after_two_creates !! pk = Some row ->
       dyte_meeting_id row = Scenario.uuid "id-i" ->
       pk = 1.
Proof.
  assert (Hreach : reachable Scenario.provider Cases.after_two_creates)
    by exact (reachable_step Scenario.provider (Create Scenario.payload) _
                (reachable_step Scenario.provider (Create Scenario.payload) initial
                   (reachable_initial Scenario.provider))).
  split; [exact Hreach|].
  intros pk row Hrow Hmeeting.
  assert (Halice : table Cases.after_two_creates !! 1 = Some Scenario.alice)
    by (vm_compute; reflexivity).
  apply (reachable_rows_have_their_own_meeting_and_participant Scenario.provider
           Cases.after_two_creates pk 1 row Scenario.alice Hreach Hrow Halice).
  left. exact Hmeeting.
Defined.

Lemma meeting_state_witness :
  dispatches Meeting.reducer Meeting.initial_state
    (Cases.setup_actions (JStr "token-iii")) =
  inr {| Meeting.dyte_auth_token := Some (JStr "token-iii");
         Meeting.show_meeting := true |}
  /\ Meeting.show_meeting
       {| Meeting.dyte_auth_token := Some (JStr "token-iii");
          Meeting.show_meeting := true |} = true
  /\ Meeting.last_token (Cases.setup_actions (JStr "token-iii")) =
     Some (Some (JStr "token-iii")).
Proof.
  split; [reflexivity|]. split; [|reflexivity].
  apply (proj1 (meeting_state_after_dispatches
                  (Cases.setup_actions (JStr "token-iii")) Meeting.initial_state _
                  eq_refl)).
  right.
  exists {| Meeting.type := "set_show_meeting";
            Meeting.action_dyte_auth_token := None |}.
  split; [|reflexivity].
  apply elem_of_cons. right. apply elem_of_cons. left. reflexivity.
Defined.

Lemma meeting_throw_witness :
  dispatches Meeting.reducer Meeting.initial_state
    (Cases.setup_actions (JStr "token-iii")
     ++ Cases.stray_action :: Cases.setup_actions JNull)%list =
  inl "Invalid action type: set_meeting".
Proof.
  apply (proj2 (meeting_dispatches_throw_on_first_unknown_type _ _ _)).
  exists (Cases.setup_actions (JStr "token-iii")), (Cases.setup_actions JNull),
         Cases.stray_action.
  split; [reflexivity|]. split; [|split; [|reflexivity]].
  - constructor; [left; reflexivity|].
    constructor; [right; reflexivity|]. constructor.
  - intros [Htype|Htype]; discriminate.
Defined.

Lemma support_page_witness :
  dispatches LiveRequestPage.reducer
    {| LiveRequestPage.liveRequests := [(7, Cases.bob)] |}
    [{| LiveRequestPage.action_liveRequests := [(1, Scenario.alice)];
        LiveRequestPage.type := "set_liveRequests" |};
     {| LiveRequestPage.action_liveRequests := [(2, Cases.bob)];
        LiveRequestPage.type := "set_liveRequests" |}] =
  inr {| LiveRequestPage.liveRequests := [(2, Cases.bob)] |}
  /\ {| LiveRequestPage.liveRequests := [(2, Cases.bob)] |} =
     match last [{| LiveRequestPage.action_liveRequests := [(1, Scenario.alice)];
                    LiveRequestPage.type := "set_liveRequests" |};
                 {| LiveRequestPage.action_liveRequests := [(2, Cases.bob)];
                    LiveRequestPage.type := "set_liveRequests" |}] with
     | Some action =>
         {| LiveRequestPage.liveRequests :=
              LiveRequestPage.action_liveRequests action |}
     | None => {| LiveRequestPage.liveRequests := [(7, Cases.bob)] |}
     end.
Proof.
  split; [reflexivity|].
  exact (proj1 (support_page_shows_the_last_list
                  [{| LiveRequestPage.action_liveRequests := [(1, Scenario.alice)];
                      LiveRequestPage.type := "set_liveRequests" |};
                   {| LiveRequestPage.action_liveRequests := [(2, Cases.bob)];
                      LiveRequestPage.type := "set_liveRequests" |}]
                  {| LiveRequestPage.liveRequests := [(7, Cases.bob)] |}
                  {| LiveRequestPage.liveRequests := [(2, Cases.bob)] |}
                  eq_refl)).
Defined.

Lemma required_key_witness :
  assoc "user_email"
    [("user_name", JStr "Alice");
     ("product", JObj [("id", JNum 1); ("image", JStr "http://x.com/1.png")])] = None
  /\ exists errors : Errors,
       LiveVideoRequestSerializer Scenario.bad_payload = inl errors
       /\ ("user_email", Code "required") ∈ errors.
Proof.
  split; [reflexivity|].
  apply (proj1 (payload_without_a_required_key_is_rejected
                  [("user_name", JStr "Alice");
                   ("product", JObj [("id", JNum 1);
                                     ("image", JStr "http://x.com/1.png")])]
                  "user_email")); [left; reflexivity|reflexivity].
Defined.

End Runs.
